(** * pybio.torch.transformations.generic

    A shallow embedding of the four per-tensor transformations of
    [pybio/torch/transformations/generic.py] ([AsType], [EnsureTorch],
    [EnsureNumpy], [AverageChannels]) together with a model of the
    parts of numpy and torch that they call.

    Tensors are kept the way the libraries keep them: an element type, a
    shape and a flat, row-major sequence of elements.  Python exceptions
    are values of [exn] and every operation that can raise returns a
    [result]. *)

From Stdlib Require Import String ZArith QArith List Bool Arith Lia.
Import ListNotations.
Local Close Scope Q_scope.
Local Open Scope string_scope.
Local Open Scope list_scope.

Set Implicit Arguments.

(** ** Exceptions and results *)

Inductive exn : Type :=
| ValueError (msg : string)
| TypeError (msg : string)
| AttributeError (msg : string)
| IndexError (msg : string)
| RuntimeError (msg : string).

Inductive result (A : Type) : Type :=
| Ok (a : A)
| Raise (e : exn).

Arguments Ok {A} a.
Arguments Raise {A} e.

Definition bind {A B : Type} (r : result A) (k : A -> result B) : result B :=
  match r with
  | Ok a => k a
  | Raise e => Raise e
  end.

Notation "x <- r ;; k" := (bind r (fun x => k))
  (at level 61, r at next level, right associativity).

Definition succeeds {A : Type} (r : result A) : Prop := exists a, r = Ok a.

(** ** Element types *)

(** The floating-point formats of the two libraries. *)
Inductive float_format : Type :=
| Half | BFloat | Single | Double | LongDouble.

(** What an element type stores. *)
Inductive kind : Type :=
| KBool
| KInt (signed : bool) (bits : Z)
| KFloat (f : float_format)
| KComplex (f : float_format).

(** [numpy.dtype]: the numeric element types of a host array. *)
Inductive np_dtype : Type :=
| np_bool
| np_int8 | np_int16 | np_int32 | np_int64
| np_uint8 | np_uint16 | np_uint32 | np_uint64
| np_float16 | np_float32 | np_float64 | np_longdouble
| np_complex64 | np_complex128.

(** [torch.dtype]: the numeric element types of a native tensor (the
    quantized ones are left out).  There is no unsigned type wider than
    8 bits, which is what the comment in [EnsureTorch] refers to. *)
Inductive torch_dtype : Type :=
| torch_bool
| torch_uint8
| torch_int8 | torch_int16 | torch_int32 | torch_int64
| torch_float16 | torch_bfloat16 | torch_float32 | torch_float64
| torch_complex64 | torch_complex128.

Definition np_dtype_eq_dec (a b : np_dtype) : {a = b} + {a <> b}.
Proof. decide equality. Defined.

Definition torch_dtype_eq_dec (a b : torch_dtype) : {a = b} + {a <> b}.
Proof. decide equality. Defined.

Definition np_dtype_eqb (a b : np_dtype) : bool :=
  if np_dtype_eq_dec a b then true else false.

Definition torch_dtype_eqb (a b : torch_dtype) : bool :=
  if torch_dtype_eq_dec a b then true else false.

Definition np_kind (d : np_dtype) : kind :=
  match d with
  | np_bool => KBool
  | np_int8 => KInt true 8
  | np_int16 => KInt true 16
  | np_int32 => KInt true 32
  | np_int64 => KInt true 64
  | np_uint8 => KInt false 8
  | np_uint16 => KInt false 16
  | np_uint32 => KInt false 32
  | np_uint64 => KInt false 64
  | np_float16 => KFloat Half
  | np_float32 => KFloat Single
  | np_float64 => KFloat Double
  | np_longdouble => KFloat LongDouble
  | np_complex64 => KComplex Single
  | np_complex128 => KComplex Double
  end.

Definition torch_kind (d : torch_dtype) : kind :=
  match d with
  | torch_bool => KBool
  | torch_uint8 => KInt false 8
  | torch_int8 => KInt true 8
  | torch_int16 => KInt true 16
  | torch_int32 => KInt true 32
  | torch_int64 => KInt true 64
  | torch_float16 => KFloat Half
  | torch_bfloat16 => KFloat BFloat
  | torch_float32 => KFloat Single
  | torch_float64 => KFloat Double
  | torch_complex64 => KComplex Single
  | torch_complex128 => KComplex Double
  end.

(** [dtype.is_floating_point or dtype.is_complex]: the element types a
    mean can be taken of. *)
Definition is_floating_or_complex (d : torch_dtype) : bool :=
  match torch_kind d with
  | KFloat _ | KComplex _ => true
  | _ => false
  end.

(** ** Elements *)

(** An element of an array or tensor.  Integers are exact; the
    floating-point values [F] belong to the library. *)
Inductive scalar (F : Type) : Type :=
| SBool (b : bool)
| SInt (z : Z)
| SFloat (x : F)
| SComplex (re im : F).

Arguments SBool {F} b.
Arguments SInt {F} z.
Arguments SFloat {F} x.
Arguments SComplex {F} re im.

(** Two's-complement wrap-around of an integer stored in [bits] bits. *)
Definition wrap (signed : bool) (bits : Z) (z : Z) : Z :=
  if signed
  then (z + 2 ^ (bits - 1)) mod 2 ^ bits - 2 ^ (bits - 1)
  else z mod 2 ^ bits.

Definition in_range (signed : bool) (bits : Z) (z : Z) : bool :=
  if signed
  then (- 2 ^ (bits - 1) <=? z)%Z && (z <? 2 ^ (bits - 1))%Z
  else (0 <=? z)%Z && (z <? 2 ^ bits)%Z.

(** ** What the code takes from outside

    The arithmetic of the tensor library on floating-point values, the
    name space of the [torch] module that [getattr] consults, and the
    constructor of the base class [PyBioTorchTransformation], which is
    not part of these sources. *)

Inductive torch_attr : Type :=
| AttrDtype (d : torch_dtype)
| AttrOther.

Class Library : Type := {
  F : Type;
  (** conversion of an integer to a floating-point value *)
  float_of_int : Z -> F;
  (** conversion of a floating-point value to an integer (truncation) *)
  int_of_float : F -> Z;
  (** rounding into a floating-point format *)
  float_round : float_format -> F -> F;
  (** comparison with zero, for conversions to bool *)
  float_is_zero : F -> bool;
  (** the mean reduction over a sequence of values of one format *)
  float_mean : float_format -> list F -> F;
  (** [torch.__dict__]: the attribute a name is bound to, if any *)
  torch_namespace : string -> option torch_attr;
  (** keyword arguments of, and the state kept by, the base class *)
  super_kwargs : Type;
  Base : Type;
  no_kwargs : super_kwargs;
  base_init : super_kwargs -> result Base
}.

(** ** Flat row-major storage *)

Section Storage.
Variable A : Type.

(** Number of elements of a shape. *)
Definition numel (shape : list nat) : nat := fold_right Nat.mul 1 shape.

(** The first [n] consecutive blocks of [size] elements. *)
Fixpoint chunks (n size : nat) (l : list A) : list (list A) :=
  match n with
  | O => []
  | S n' => firstn size l :: chunks n' size (skipn size l)
  end.

(** Row-major position of a multi-index. *)
Fixpoint offset (shape idx : list nat) : nat :=
  match shape, idx with
  | _ :: ds, i :: js => i * numel ds + offset ds js
  | _, _ => 0
  end.

(** Elements [lo, hi) along [axis]. *)
Definition slice_axis (axis lo hi : nat) (shape : list nat) (data : list A)
  : list A :=
  let outer := numel (firstn axis shape) in
  let dim := nth axis shape 0 in
  let inner := numel (skipn (S axis) shape) in
  concat (map (fun ch => firstn ((hi - lo) * inner) (skipn (lo * inner) ch))
              (chunks outer (dim * inner) data)).

(** Reduction with [red] along [axis]; one element is produced for each
    position of the other axes. *)
Definition reduce_axis (dflt : A) (red : list A -> A) (axis : nat)
           (shape : list nat) (data : list A) : list A :=
  let outer := numel (firstn axis shape) in
  let dim := nth axis shape 0 in
  let inner := numel (skipn (S axis) shape) in
  concat (map (fun ch =>
                 map (fun k =>
                        red (map (fun c => nth (c * inner + k) ch dflt)
                                 (seq 0 dim)))
                     (seq 0 inner))
              (chunks outer (dim * inner) data)).

Definition set_dim (axis n : nat) (shape : list nat) : list nat :=
  firstn axis shape ++ n :: skipn (S axis) shape.

Definition drop_dim (axis : nat) (shape : list nat) : list nat :=
  firstn axis shape ++ skipn (S axis) shape.
End Storage.

(** A multi-index addresses an element of a shape when it has one
    in-range component for each axis. *)
Definition valid_index (shape idx : list nat) : Prop := Forall2 lt idx shape.

(** ** Python slices *)

Record slice : Type := { start : option Z; stop : option Z }.

(** A bound of a slice over a sequence of length [len]: a negative bound
    counts from the end, and the outcome is clamped to [0, len]. *)
Definition norm_index (len i : Z) : Z :=
  let i' := if (i <? 0)%Z then (i + len)%Z else i in
  Z.max 0 (Z.min len i').

(** [slice.indices(len)] for a step of 1: the selected positions are
    [lo, hi), none when [hi] does not exceed [lo]. *)
Definition slice_bounds (len : nat) (s : slice) : nat * nat :=
  let n := Z.of_nat len in
  let lo := match start s with None => 0%Z | Some i => norm_index n i end in
  let hi := match stop s with None => n | Some i => norm_index n i end in
  (Z.to_nat lo, Z.to_nat (Z.max lo hi)).

(** A bound as a position: a negative one counts from the end. *)
Definition from_end (len i : Z) : Z :=
  if (i <? 0)%Z then (len + i)%Z else i.

(** The positions that [start:stop] selects in a sequence of length
    [len]. *)
Definition selected (len : nat) (start_ stop_ : Z) : list nat :=
  let '(lo, hi) :=
    slice_bounds len {| start := Some start_; stop := Some stop_ |} in
  seq lo (hi - lo).

(** ** numpy and torch *)

Inductive device : Type :=
| device_cpu
| device_cuda (index : nat).

Section Libraries.
Context {L : Library}.

Definition elem : Type := scalar F.

Definition dflt : elem := SInt 0.

(** *** Conversion of elements between element types (a C cast) *)

Definition to_int (v : elem) : Z :=
  match v with
  | SBool b => Z.b2z b
  | SInt z => z
  | SFloat x => int_of_float x
  | SComplex re _ => int_of_float re
  end.

Definition to_float (v : elem) : F :=
  match v with
  | SBool b => float_of_int (Z.b2z b)
  | SInt z => float_of_int z
  | SFloat x => x
  | SComplex re _ => re
  end.

Definition imag (v : elem) : F :=
  match v with
  | SComplex _ im => im
  | _ => float_of_int 0
  end.

Definition truthy (v : elem) : bool :=
  match v with
  | SBool b => b
  | SInt z => negb (z =? 0)%Z
  | SFloat x => negb (float_is_zero x)
  | SComplex re im => negb (float_is_zero re && float_is_zero im)
  end.

Definition cast (k : kind) (v : elem) : elem :=
  match k with
  | KBool => SBool (truthy v)
  | KInt sg bits => SInt (wrap sg bits (to_int v))
  | KFloat f => SFloat (float_round f (to_float v))
  | KComplex f => SComplex (float_round f (to_float v)) (float_round f (imag v))
  end.

(** An element that an element type can hold. *)
Definition valid_elem (k : kind) (v : elem) : bool :=
  match k, v with
  | KBool, SBool _ => true
  | KInt sg bits, SInt z => in_range sg bits z
  | KFloat _, SFloat _ => true
  | KComplex _, SComplex _ _ => true
  | _, _ => false
  end.

(** *** numpy.ndarray *)

Record ndarray : Type := {
  adtype : np_dtype;
  ashape : list nat;
  adata : list elem
}.

(** [ndarray.astype(dtype)]: a new array of the same shape whose
    elements are the old ones converted. *)
Definition ndarray_astype (a : ndarray) (d : np_dtype) : ndarray :=
  {| adtype := d;
     ashape := ashape a;
     adata := map (cast (np_kind d)) (adata a) |}.

(** *** torch.Tensor *)

Record Tensor : Type := {
  tdtype : torch_dtype;
  tshape : list nat;
  tdata : list elem;
  tdevice : device;
  trequires_grad : bool
}.

(** The element at a multi-index. *)
Definition tensor_at (t : Tensor) (idx : list nat) : elem :=
  nth (offset (tshape t) idx) (tdata t) dflt.

(** The element types [torch.from_numpy] accepts: float64, float32,
    float16, complex64, complex128, int64, int32, int16, int8, uint8
    and bool. *)
Definition torch_of_np_dtype (d : np_dtype) : option torch_dtype :=
  match d with
  | np_float64 => Some torch_float64
  | np_float32 => Some torch_float32
  | np_float16 => Some torch_float16
  | np_complex64 => Some torch_complex64
  | np_complex128 => Some torch_complex128
  | np_int64 => Some torch_int64
  | np_int32 => Some torch_int32
  | np_int16 => Some torch_int16
  | np_int8 => Some torch_int8
  | np_uint8 => Some torch_uint8
  | np_bool => Some torch_bool
  | np_uint16 | np_uint32 | np_uint64 | np_longdouble => None
  end.

(** [torch.from_numpy(ndarray)]: a CPU tensor over the array's
    elements, or a [TypeError] for an element type torch lacks. *)
Definition torch_from_numpy (a : ndarray) : result Tensor :=
  match torch_of_np_dtype (adtype a) with
  | Some d =>
      Ok {| tdtype := d;
            tshape := ashape a;
            tdata := adata a;
            tdevice := device_cpu;
            trequires_grad := false |}
  | None => Raise (TypeError "can't convert np.ndarray of this type")
  end.

(** [Tensor.detach()]: the same elements outside the autograd graph. *)
Definition tensor_detach (t : Tensor) : Tensor :=
  {| tdtype := tdtype t;
     tshape := tshape t;
     tdata := tdata t;
     tdevice := tdevice t;
     trequires_grad := false |}.

(** [Tensor.cpu()]: the same elements in host memory. *)
Definition tensor_cpu (t : Tensor) : Tensor :=
  {| tdtype := tdtype t;
     tshape := tshape t;
     tdata := tdata t;
     tdevice := device_cpu;
     trequires_grad := trequires_grad t |}.

Definition np_of_torch_dtype (d : torch_dtype) : option np_dtype :=
  match d with
  | torch_bool => Some np_bool
  | torch_uint8 => Some np_uint8
  | torch_int8 => Some np_int8
  | torch_int16 => Some np_int16
  | torch_int32 => Some np_int32
  | torch_int64 => Some np_int64
  | torch_float16 => Some np_float16
  | torch_float32 => Some np_float32
  | torch_float64 => Some np_float64
  | torch_complex64 => Some np_complex64
  | torch_complex128 => Some np_complex128
  | torch_bfloat16 => None
  end.

(** [Tensor.numpy()]: refuses a tensor on an accelerator, a tensor that
    requires grad and an element type numpy lacks. *)
Definition tensor_numpy (t : Tensor) : result ndarray :=
  match tdevice t with
  | device_cuda _ =>
      Raise (TypeError "can't convert cuda device type tensor to numpy")
  | device_cpu =>
      if trequires_grad t
      then Raise (RuntimeError "Can't call numpy() on Tensor that requires grad")
      else
        match np_of_torch_dtype (tdtype t) with
        | Some d =>
            Ok {| adtype := d; ashape := tshape t; adata := tdata t |}
        | None => Raise (TypeError "Got unsupported ScalarType BFloat16")
        end
  end.

(** [Tensor.type(dtype=..., non_blocking=...)]: the tensor itself when
    it has the element type already, else a converted copy on the same
    device. *)
Definition tensor_type (t : Tensor) (dtype : torch_dtype)
           (non_blocking : bool) : Tensor :=
  if torch_dtype_eqb (tdtype t) dtype then t
  else
    {| tdtype := dtype;
       tshape := tshape t;
       tdata := map (cast (torch_kind dtype)) (tdata t);
       tdevice := tdevice t;
       trequires_grad := trequires_grad t && is_floating_or_complex dtype |}.

(** [tensor.shape[i]]: [torch.Size] is a tuple. *)
Definition shape_getitem (shape : list nat) (i : nat) : result Z :=
  match nth_error shape i with
  | Some n => Ok (Z.of_nat n)
  | None => Raise (IndexError "tuple index out of range")
  end.

Definition tensor_slice (axis lo hi : nat) (t : Tensor) : Tensor :=
  {| tdtype := tdtype t;
     tshape := set_dim axis (hi - lo) (tshape t);
     tdata := slice_axis axis lo hi (tshape t) (tdata t);
     tdevice := tdevice t;
     trequires_grad := trequires_grad t |}.

(** [tensor[idx]] for a tuple of slices, one per leading axis. *)
Fixpoint getitem_from (axis : nat) (idx : list slice) (t : Tensor)
  : result Tensor :=
  match idx with
  | [] => Ok t
  | s :: rest =>
      match nth_error (tshape t) axis with
      | None => Raise (IndexError "too many indices for tensor")
      | Some len =>
          let '(lo, hi) := slice_bounds len s in
          getitem_from (S axis) rest (tensor_slice axis lo hi t)
      end
  end.

Definition tensor_getitem (t : Tensor) (idx : list slice) : result Tensor :=
  getitem_from 0 idx t.

(** The mean of a sequence of elements of a floating-point or complex
    element type; the other element types have none. *)
Definition mean_of_kind (k : kind) : option (list elem -> elem) :=
  match k with
  | KFloat f => Some (fun l => SFloat (float_mean f (map to_float l)))
  | KComplex f =>
      Some (fun l => SComplex (float_mean f (map to_float l))
                              (float_mean f (map imag l)))
  | KBool | KInt _ _ => None
  end.

(** [torch.mean(input, dim, keepdim)]: a [RuntimeError] unless the
    element type is floating point or complex. *)
Definition torch_mean (t : Tensor) (dim : nat) (keepdim : bool)
  : result Tensor :=
  match mean_of_kind (torch_kind (tdtype t)) with
  | None =>
      Raise (RuntimeError "Can only calculate the mean of floating types")
  | Some red =>
      match nth_error (tshape t) dim with
      | None => Raise (IndexError "Dimension out of range")
      | Some _ =>
          Ok {| tdtype := tdtype t;
                tshape := if keepdim then set_dim dim 1 (tshape t)
                          else drop_dim dim (tshape t);
                tdata := reduce_axis dflt red dim (tshape t) (tdata t);
                tdevice := tdevice t;
                trequires_grad := trequires_grad t |}
      end
  end.

(** [getattr(torch, name)] *)
Definition torch_getattr (name : string) : result torch_attr :=
  match torch_namespace name with
  | Some a => Ok a
  | None => Raise (AttributeError
                     (String.append "module 'torch' has no attribute " name))
  end.
End Libraries.

(** What [apply_to_chosen] is handed: [Union[numpy.ndarray, torch.Tensor]]. *)
Inductive value {L : Library} : Type :=
| VArray (a : ndarray)
| VTensor (t : Tensor).

(** ** class AsType *)

Module AsType.
Section Class.
Context {L : Library}.

Record kwargs_t : Type := { dtype : torch_dtype; non_blocking : bool }.

Record t : Type := { base : Base; kwargs : kwargs_t }.

Definition __init__ (dtype : string) (non_blocking : bool)
           (kw : super_kwargs) : result t :=
  b <- base_init kw ;;
  torch_dtype <- torch_getattr dtype ;;
  match torch_dtype with
  | AttrDtype d =>
      Ok {| base := b;
            kwargs := {| dtype := d; non_blocking := non_blocking |} |}
  | AttrOther => Raise (TypeError (String.append "torch." dtype))
  end.

Definition apply_to_chosen (self : t) (tensor : Tensor) : Tensor :=
  tensor_type tensor (dtype (kwargs self)) (non_blocking (kwargs self)).
End Class.
End AsType.

(** ** class EnsureTorch *)

Module EnsureTorch.
Section Class.
Context {L : Library}.

Record t : Type := { base : Base }.

Definition __init__ (kw : super_kwargs) : result t :=
  b <- base_init kw ;; Ok {| base := b |}.

Definition apply_to_chosen (self : t) (tensor : value) : result value :=
  match tensor with
  | VArray a =>
      let a :=
        if np_dtype_eqb (adtype a) np_uint16
        then ndarray_astype a np_int32
        else a in
      r <- torch_from_numpy a ;; Ok (VTensor r)
  | VTensor _ => Ok tensor
  end.
End Class.
End EnsureTorch.

(** ** class EnsureNumpy *)

Module EnsureNumpy.
Section Class.
Context {L : Library}.

Record t : Type := { base : Base }.

Definition __init__ (kw : super_kwargs) : result t :=
  b <- base_init kw ;; Ok {| base := b |}.

Definition apply_to_chosen (self : t) (tensor : value) : result value :=
  match tensor with
  | VTensor x =>
      r <- tensor_numpy (tensor_cpu (tensor_detach x)) ;; Ok (VArray r)
  | VArray _ => Ok tensor
  end.
End Class.
End EnsureNumpy.

(** ** class AverageChannels *)

Module AverageChannels.
Section Class.
Context {L : Library}.

Record t : Type := {
  base : Base;
  start_channel : option Z;
  stop_channel : option Z
}.

Definition invalid_range : exn :=
  ValueError
    "Invalid channel range in pybio.torch.transformation.AverageChannels".

(** The base class is initialised without the keyword arguments. *)
Definition __init__ (start_channel stop_channel : option Z)
           (kw : super_kwargs) : result t :=
  b <- base_init no_kwargs ;;
  Ok {| base := b;
        start_channel := start_channel;
        stop_channel := stop_channel |}.

(** [numpy.s_[:, start:stop]] *)
Definition s_ (start_channel stop_channel : Z) : list slice :=
  [ {| start := None; stop := None |};
    {| start := Some start_channel; stop := Some stop_channel |} ].

Definition apply_to_chosen (self : t) (tensor : Tensor) : result Tensor :=
  n_channels <- shape_getitem (tshape tensor) 1 ;;
  let start_channel :=
    match start_channel self with None => 0%Z | Some s => s end in
  let stop_channel :=
    match stop_channel self with None => n_channels | Some s => s end in
  if (start_channel >=? stop_channel)%Z || (stop_channel >? n_channels)%Z
  then Raise invalid_range
  else
    let slice_ := s_ start_channel stop_channel in
    sliced <- tensor_getitem tensor slice_ ;;
    torch_mean sliced 1 true.

(** The bounds in force for a tensor of [n_channels] channels. *)
Definition effective_start (self : t) : Z :=
  match start_channel self with None => 0%Z | Some s => s end.

Definition effective_stop (self : t) (n_channels : nat) : Z :=
  match stop_channel self with
  | None => Z.of_nat n_channels
  | Some s => s
  end.

Definition valid_range (self : t) (n_channels : nat) : Prop :=
  (effective_start self < effective_stop self n_channels
   <= Z.of_nat n_channels)%Z.
End Class.
End AverageChannels.

(** ** A library to run the code on

    Exact rational arithmetic in place of the floating-point formats, a
    part of the name space of [torch] (a name outside it is unbound) and
    a base class that keeps its keyword arguments.  The rationals have no
    NaN: the mean of no value is 0 here, where the floating-point formats
    give NaN, and no statement below relies on that value. *)

Definition Qmean (l : list Q) : Q :=
  Qred (Qdiv (fold_right Qplus (Qmake 0 1) l)
             (inject_Z (Z.of_nat (length l)))).

Definition Qtrunc (x : Q) : Z := Z.quot (Qnum x) (Zpos (Qden x)).

Definition torch_names : list (string * torch_attr) :=
  [ ("float32", AttrDtype torch_float32); ("float", AttrDtype torch_float32);
    ("float64", AttrDtype torch_float64); ("double", AttrDtype torch_float64);
    ("float16", AttrDtype torch_float16); ("half", AttrDtype torch_float16);
    ("bfloat16", AttrDtype torch_bfloat16);
    ("uint8", AttrDtype torch_uint8); ("int8", AttrDtype torch_int8);
    ("int16", AttrDtype torch_int16); ("short", AttrDtype torch_int16);
    ("int32", AttrDtype torch_int32); ("int", AttrDtype torch_int32);
    ("int64", AttrDtype torch_int64); ("long", AttrDtype torch_int64);
    ("bool", AttrDtype torch_bool);
    ("complex64", AttrDtype torch_complex64);
    ("complex128", AttrDtype torch_complex128);
    ("nn", AttrOther); ("Tensor", AttrOther); ("tensor", AttrOther);
    ("mean", AttrOther); ("from_numpy", AttrOther); ("dtype", AttrOther) ].

Fixpoint lookup_name (names : list (string * torch_attr)) (name : string)
  : option torch_attr :=
  match names with
  | [] => None
  | (n, a) :: rest => if String.eqb n name then Some a else lookup_name rest name
  end.

#[export] Instance exact_library : Library := {|
  F := Q;
  float_of_int := inject_Z;
  int_of_float := Qtrunc;
  float_round := fun _ x => x;
  float_is_zero := fun x => Qeq_bool x (Qmake 0 1);
  float_mean := fun _ => Qmean;
  torch_namespace := lookup_name torch_names;
  super_kwargs := list string;
  Base := list string;
  no_kwargs := [];
  base_init := fun kw => Ok kw
|}.

(** ** The inputs of the scenarios *)

Section Scenarios.
Context {L : Library}.

(** A host array of shape [2,4,3,3] of unsigned 16-bit integers, all 5. *)
Definition scenario_array : ndarray :=
  {| adtype := np_uint16;
     ashape := [2; 4; 3; 3];
     adata := repeat (SInt 5) 72 |}.

(** The tensor [torch.from_numpy] makes of it once widened. *)
Definition scenario_tensor : Tensor :=
  {| tdtype := torch_int32;
     tshape := [2; 4; 3; 3];
     tdata := repeat (SInt 5) 72;
     tdevice := device_cpu;
     trequires_grad := false |}.

(** A CPU tensor of element type [dtype] over [data]. *)
Definition cpu_tensor (dtype : torch_dtype) (shape : list nat)
           (data : list elem) : Tensor :=
  {| tdtype := dtype;
     tshape := shape;
     tdata := data;
     tdevice := device_cpu;
     trequires_grad := false |}.

(** Tensors and arrays to run the calls on. *)
Definition floats (l : list Z) : list elem :=
  map (fun z => SFloat (float_of_int z)) l.

Definition int_tensor : Tensor :=
  cpu_tensor torch_int32 [1; 4; 1; 1] [SInt 1; SInt 2; SInt 3; SInt 4].

Definition float_row : Tensor :=
  cpu_tensor torch_float32 [1; 4] (floats [1; 2; 3; 4]%Z).

Definition float_batch : Tensor :=
  cpu_tensor torch_float32 [2; 4; 1; 2]
             (floats [1; 2; 3; 4; 5; 6; 7; 8;
                      9; 10; 11; 12; 13; 14; 15; 16]%Z).

Definition float_vector : Tensor :=
  cpu_tensor torch_float32 [3] (floats [1; 2; 3]%Z).

Definition uint16_array : ndarray :=
  {| adtype := np_uint16;
     ashape := [3];
     adata := [SInt 0; SInt 5; SInt 65535] |}.



Definition average (b : Base) (s e : option Z) : AverageChannels.t :=
  {| AverageChannels.base := b;
     AverageChannels.start_channel := s;
     AverageChannels.stop_channel := e |}.
End Scenarios.


(** The transformation objects as constructed on [exact_library]. *)
Definition no_base : @Base exact_library := [].

Definition ensure_torch : @EnsureTorch.t exact_library :=
  {| EnsureTorch.base := no_base |}.

Definition ensure_numpy : @EnsureNumpy.t exact_library :=
  {| EnsureNumpy.base := no_base |}.

Definition as_float32 : @AsType.t exact_library :=
  {| AsType.base := no_base;
     AsType.kwargs := {| AsType.dtype := torch_float32;
                         AsType.non_blocking := false |} |}.

(** A tensor on an accelerator that is part of the autograd graph, a
    tensor of an element type numpy lacks, and a batch of unsigned
    16-bit integers with two channels. *)
Definition cuda_tensor : @Tensor exact_library :=
  {| tdtype := torch_float32;
     tshape := [1; 2];
     tdata := floats [1; 2]%Z;
     tdevice := device_cuda 0;
     trequires_grad := true |}.

(** The batch [float_batch] with other values in channels 0 and 3. *)
Definition float_batch_other : @Tensor exact_library :=
  cpu_tensor torch_float32 [2; 4; 1; 2]
             (floats [0; 0; 3; 4; 5; 6; 0; 0;
                      0; 0; 11; 12; 13; 14; 0; 0]%Z).

Definition bfloat16_tensor : @Tensor exact_library :=
  cpu_tensor torch_bfloat16 [1] (floats [1]%Z).

Definition uint16_batch : @ndarray exact_library :=
  {| adtype := np_uint16;
     ashape := [1; 2; 2];
     adata := [SInt 1; SInt 2; SInt 3; SInt 65535] |}.

(** * Properties *)

Local Close Scope string_scope.
Unset Implicit Arguments.

(** ** Flat storage *)

Section StorageFacts.
Variable A : Type.
Implicit Types (l : list A) (ls : list (list A)).

Lemma chunks_length (n size : nat) l : length (chunks n size l) = n.
Proof.
  revert l; induction n as [|n IH]; intros l; simpl; [reflexivity|].
  now rewrite IH.
Qed.

Lemma nth_chunks (n size b : nat) l d0 :
  b < n ->
  nth b (chunks n size l) d0 = firstn size (skipn (b * size) l).
Proof.
  revert l b; induction n as [|n IH]; intros l b Hb; [lia|].
  destruct b as [|b]; simpl; [reflexivity|].
  rewrite IH by lia.
  rewrite skipn_skipn.
  now replace (b * size + size) with (size + b * size) by lia.
Qed.

Lemma chunks_uniform (n size : nat) l :
  n * size <= length l ->
  Forall (fun ch => length ch = size) (chunks n size l).
Proof.
  revert l; induction n as [|n IH]; intros l Hl; simpl; constructor.
  - rewrite length_firstn. simpl in Hl. lia.
  - apply IH. rewrite length_skipn. simpl in Hl. lia.
Qed.

Lemma concat_uniform_length (m : nat) ls :
  Forall (fun x => length x = m) ls ->
  length (concat ls) = length ls * m.
Proof.
  induction 1 as [|x ls Hx _ IH]; simpl; [reflexivity|].
  rewrite length_app, IH, Hx. reflexivity.
Qed.

Lemma nth_concat_uniform (m b i : nat) ls d0 d :
  Forall (fun x => length x = m) ls ->
  b < length ls ->
  i < m ->
  nth (b * m + i) (concat ls) d = nth i (nth b ls d0) d.
Proof.
  intros Hu; revert b; induction Hu as [|x ls Hx _ IH]; intros b Hb Hi;
    simpl in Hb; [lia|].
  destruct b as [|b]; simpl.
  - apply app_nth1. lia.
  - rewrite app_nth2 by lia.
    replace (m + b * m + i - length x) with (b * m + i) by lia.
    apply IH; lia.
Qed.

(** Where an element of a slice comes from. *)
Lemma nth_slice_axis (axis lo hi : nat) (shape : list nat) l d
      (o c k : nat) :
  let outer := numel (firstn axis shape) in
  let dim := nth axis shape 0 in
  let inner := numel (skipn (S axis) shape) in
  outer * (dim * inner) <= length l ->
  lo <= hi <= dim ->
  o < outer -> c < hi - lo -> k < inner ->
  nth ((o * (hi - lo) + c) * inner + k) (slice_axis axis lo hi shape l) d
  = nth ((o * dim + (lo + c)) * inner + k) l d.
Proof.
  intros outer dim inner Hlen Hrange Ho Hc Hk.
  unfold slice_axis. fold outer dim inner.
  set (f := fun ch => firstn ((hi - lo) * inner) (skipn (lo * inner) ch)).
  assert (Hu : Forall (fun x => length x = (hi - lo) * inner)
                      (map f (chunks outer (dim * inner) l))).
  { apply Forall_map.
    eapply Forall_impl; [|apply chunks_uniform; exact Hlen].
    intros ch Hch. unfold f.
    rewrite length_firstn, length_skipn, Hch. nia. }
  replace ((o * (hi - lo) + c) * inner + k)
    with (o * ((hi - lo) * inner) + (c * inner + k)) by nia.
  rewrite (nth_concat_uniform _ o _ _ (f []) d Hu);
    [|rewrite length_map, chunks_length; exact Ho | nia].
  rewrite map_nth. unfold f.
  rewrite nth_firstn.
  replace (c * inner + k <? (hi - lo) * inner) with true
    by (symmetry; apply Nat.ltb_lt; nia).
  rewrite nth_skipn, (nth_chunks _ _ _ _ _ Ho), nth_firstn.
  replace (lo * inner + (c * inner + k) <? dim * inner) with true
    by (symmetry; apply Nat.ltb_lt; nia).
  rewrite nth_skipn. f_equal. nia.
Qed.

Lemma slice_axis_length (axis lo hi : nat) (shape : list nat) l :
  let outer := numel (firstn axis shape) in
  let dim := nth axis shape 0 in
  let inner := numel (skipn (S axis) shape) in
  outer * (dim * inner) <= length l ->
  lo <= hi <= dim ->
  length (slice_axis axis lo hi shape l) = outer * ((hi - lo) * inner).
Proof.
  intros outer dim inner Hlen Hrange.
  unfold slice_axis. fold outer dim inner.
  rewrite concat_uniform_length with (m := (hi - lo) * inner).
  - now rewrite length_map, chunks_length.
  - apply Forall_map.
    eapply Forall_impl; [|apply chunks_uniform; exact Hlen].
    intros ch Hch. cbv beta.
    rewrite length_firstn, length_skipn, Hch. nia.
Qed.

(** What a reduction along an axis puts at each position. *)
Lemma nth_reduce_axis (d : A) (red : list A -> A) (axis : nat)
      (shape : list nat) l (o k : nat) :
  let outer := numel (firstn axis shape) in
  let dim := nth axis shape 0 in
  let inner := numel (skipn (S axis) shape) in
  outer * (dim * inner) <= length l ->
  o < outer -> k < inner ->
  nth (o * inner + k) (reduce_axis d red axis shape l) d
  = red (map (fun c => nth ((o * dim + c) * inner + k) l d) (seq 0 dim)).
Proof.
  intros outer dim inner Hlen Ho Hk.
  unfold reduce_axis. fold outer dim inner.
  set (g := fun ch : list A =>
              map (fun k0 =>
                     red (map (fun c => nth (c * inner + k0) ch d)
                              (seq 0 dim)))
                  (seq 0 inner)).
  assert (Hu : Forall (fun x => length x = inner)
                      (map g (chunks outer (dim * inner) l))).
  { apply Forall_map, Forall_forall. intros ch _. unfold g.
    now rewrite length_map, length_seq. }
  rewrite (nth_concat_uniform _ o _ _ (g []) d Hu);
    [|rewrite length_map, chunks_length; exact Ho | exact Hk].
  rewrite map_nth. unfold g.
  rewrite (nth_indep _ d (red (map (fun c => nth (c * inner + 0) (nth o (chunks outer (dim * inner) l) []) d) (seq 0 dim))))
    by (rewrite length_map, length_seq; exact Hk).
  rewrite (map_nth (fun k0 => red (map (fun c => nth (c * inner + k0) (nth o (chunks outer (dim * inner) l) []) d) (seq 0 dim))) (seq 0 inner) 0 k).
  rewrite seq_nth by exact Hk. simpl (0 + k).
  f_equal. apply map_ext_in. intros c Hc. apply in_seq in Hc.
  rewrite (nth_chunks _ _ _ _ _ Ho), nth_firstn.
  replace (c * inner + k <? dim * inner) with true
    by (symmetry; apply Nat.ltb_lt; nia).
  rewrite nth_skipn. f_equal. nia.
Qed.

Lemma reduce_axis_length (d : A) (red : list A -> A) (axis : nat)
      (shape : list nat) l :
  length (reduce_axis d red axis shape l)
  = numel (firstn axis shape) * numel (skipn (S axis) shape).
Proof.
  unfold reduce_axis.
  rewrite concat_uniform_length with (m := numel (skipn (S axis) shape)).
  - now rewrite length_map, chunks_length.
  - apply Forall_map, Forall_forall. intros ch _.
    now rewrite length_map, length_seq.
Qed.

(** The full range of the leading axis is the whole storage. *)
Lemma slice_axis_all (n : nat) (shape : list nat) l :
  length l = numel (n :: shape) ->
  slice_axis 0 0 n (n :: shape) l = l.
Proof.
  intros Hlen. unfold slice_axis. simpl.
  rewrite app_nil_r, Nat.sub_0_r.
  rewrite firstn_firstn, Nat.min_id.
  apply firstn_all2. simpl in Hlen. lia.
Qed.
End StorageFacts.

Lemma offset_lt (shape idx : list nat) :
  valid_index shape idx -> offset shape idx < numel shape.
Proof.
  unfold valid_index. intros H.
  induction H as [|i n js ds Hi _ IH]; simpl; [lia|].
  fold (numel ds). nia.
Qed.

Lemma map_seq_from (B : Type) (f : nat -> B) (lo n : nat) :
  map (fun c => f (lo + c)) (seq 0 n) = map f (seq lo n).
Proof.
  revert lo; induction n as [|n IH]; intros lo; simpl; [reflexivity|].
  rewrite Nat.add_0_r. f_equal.
  rewrite <- seq_shift, map_map, <- IH.
  apply map_ext. intros c. f_equal. lia.
Qed.

(** ** Slices *)

Lemma slice_bounds_all (len : nat) :
  slice_bounds len {| start := None; stop := None |} = (0, len).
Proof.
  unfold slice_bounds; simpl. f_equal. lia.
Qed.

Lemma slice_bounds_ordered (len : nat) (s : slice) :
  fst (slice_bounds len s) <= snd (slice_bounds len s) <= len.
Proof.
  unfold slice_bounds, norm_index; simpl.
  destruct (start s) as [i|], (stop s) as [j|];
    repeat match goal with
           | |- context [(?x <? 0)%Z] => destruct (Z.ltb_spec x 0)
           end; lia.
Qed.

(** The bounds of [start:stop] when [start < stop <= len]: a negative
    bound counts from the end, and a start before the first position is
    the first position. *)
Lemma slice_bounds_valid (len : nat) (s e : Z) :
  (s < e <= Z.of_nat len)%Z ->
  let lo := Z.max 0 (from_end (Z.of_nat len) s) in
  let hi := from_end (Z.of_nat len) e in
  slice_bounds len {| start := Some s; stop := Some e |}
  = (Z.to_nat lo, Z.to_nat (Z.max lo hi)).
Proof.
  intros H. unfold slice_bounds, norm_index, from_end; simpl.
  destruct (Z.ltb_spec s 0), (Z.ltb_spec e 0); f_equal; lia.
Qed.

Lemma slice_bounds_nonneg (len : nat) (s e : Z) :
  (0 <= s < e)%Z -> (e <= Z.of_nat len)%Z ->
  slice_bounds len {| start := Some s; stop := Some e |}
  = (Z.to_nat s, Z.to_nat e).
Proof.
  intros H1 H2. rewrite slice_bounds_valid by lia. unfold from_end.
  destruct (Z.ltb_spec s 0), (Z.ltb_spec e 0); f_equal; lia.
Qed.

(** ** AverageChannels *)

Section AverageChannelsFacts.
Context {L : Library}.
Import AverageChannels.

Lemma apply_to_chosen_short (self : t) (tensor : Tensor) :
  length (tshape tensor) < 2 ->
  apply_to_chosen self tensor
  = Raise (IndexError "tuple index out of range").
Proof.
  intros Hlen. unfold apply_to_chosen, shape_getitem.
  destruct (tshape tensor) as [|n0 [|n1 ds]]; simpl in *;
    [reflexivity | reflexivity | lia].
Qed.

Lemma apply_to_chosen_invalid (self : t) (tensor : Tensor) (n : nat) :
  nth_error (tshape tensor) 1 = Some n ->
  ~ valid_range self n ->
  apply_to_chosen self tensor = Raise invalid_range.
Proof.
  intros Hn Hbad. unfold apply_to_chosen, shape_getitem.
  rewrite Hn. simpl bind.
  unfold valid_range, effective_start, effective_stop in Hbad.
  match goal with |- (if ?c then _ else _) = _ => destruct c eqn:Hc end;
    [reflexivity|].
  exfalso. apply Hbad.
  apply orb_false_iff in Hc. destruct Hc as [H1 H2].
  destruct (start_channel self), (stop_channel self); lia.
Qed.

(** What the call computes once the range has passed the check. *)
Lemma apply_to_chosen_valid (self : t) (tensor : Tensor)
      (N C : nat) (S : list nat) :
  tshape tensor = N :: C :: S ->
  valid_range self C ->
  apply_to_chosen self tensor
  = let '(lo, hi) :=
      slice_bounds C {| start := Some (effective_start self);
                        stop := Some (effective_stop self C) |} in
    match mean_of_kind (torch_kind (tdtype tensor)) with
    | None =>
        Raise (RuntimeError "Can only calculate the mean of floating types")
    | Some red =>
        Ok {| tdtype := tdtype tensor;
              tshape := N :: 1 :: S;
              tdata :=
                reduce_axis dflt red 1 (N :: (hi - lo) :: S)
                  (slice_axis 1 lo hi (N :: C :: S)
                     (slice_axis 0 0 N (N :: C :: S) (tdata tensor)));
              tdevice := tdevice tensor;
              trequires_grad := trequires_grad tensor |}
    end.
Proof.
  intros Hshape Hok. unfold apply_to_chosen, shape_getitem.
  rewrite Hshape. simpl bind.
  unfold valid_range in Hok.
  fold (effective_start self). fold (effective_stop self C).
  replace ((effective_start self >=? effective_stop self C)%Z
           || (effective_stop self C >? Z.of_nat C)%Z) with false
    by (symmetry; apply orb_false_iff; lia).
  unfold tensor_getitem, s_. simpl getitem_from.
  rewrite Hshape. simpl nth_error.
  replace (Z.to_nat (Z.max 0 (Z.of_nat N))) with N by lia.
  unfold slice_bounds; cbn [start stop].
  set (lo := Z.to_nat (norm_index _ (effective_start self))).
  set (hi := Z.to_nat (Z.max _ _)).
  cbn [bind]. unfold torch_mean, tensor_slice.
  cbn [tdtype tshape tdata tdevice trequires_grad].
  rewrite Hshape. unfold set_dim. cbn [firstn skipn app nth_error].
  rewrite Nat.sub_0_r.
  destruct (mean_of_kind (torch_kind (tdtype tensor))); reflexivity.
Qed.
End AverageChannelsFacts.

Section ChannelReduction.
Variable A : Type.
Variables (d : A) (red : list A -> A).

(** Slicing the channel axis to [lo, hi) and reducing along it, read
    through multi-indices. *)
Lemma nth_reduce_channels (N C : nat) (S : list nat) (lo hi : nat)
      (l : list A) (b : nat) (p : list nat) :
  length l = numel (N :: C :: S) ->
  lo <= hi <= C ->
  b < N ->
  valid_index S p ->
  nth (offset (N :: 1 :: S) (b :: 0 :: p))
      (reduce_axis d red 1 (N :: (hi - lo) :: S)
         (slice_axis 1 lo hi (N :: C :: S)
            (slice_axis 0 0 N (N :: C :: S) l))) d
  = red (map (fun c => nth (offset (N :: C :: S) (b :: c :: p)) l d)
             (seq lo (hi - lo))).
Proof.
  intros Hlen Hrange Hb Hp.
  rewrite slice_axis_all by exact Hlen.
  pose proof (offset_lt _ _ Hp) as Hoff.
  set (K := numel S) in *. set (k := offset S p) in *.
  assert (HlenK : length l = N * (C * K)) by exact Hlen.
  replace (offset (N :: 1 :: S) (b :: 0 :: p)) with (b * K + k)
    by (cbn [offset numel fold_right]; fold (numel S); fold K; fold k; lia).
  assert (Hsl : length (slice_axis 1 lo hi (N :: C :: S) l)
                = N * ((hi - lo) * K)).
  { rewrite slice_axis_length; cbn [numel firstn skipn nth fold_right];
      fold (numel S); fold K; lia. }
  rewrite (nth_reduce_axis _ d red 1 (N :: (hi - lo) :: S));
    cbn [numel firstn skipn nth fold_right]; fold (numel S); fold K;
    [| lia | lia | exact Hoff].
  f_equal.
  rewrite <- (map_seq_from
                _ (fun c => nth (offset (N :: C :: S) (b :: c :: p)) l d)).
  apply map_ext_in. intros c Hc. apply in_seq in Hc.
  rewrite (nth_slice_axis _ 1 lo hi (N :: C :: S));
    cbn [numel firstn skipn nth fold_right]; fold (numel S); fold K;
    [| lia | lia | lia | lia | exact Hoff].
  f_equal. cbn [offset numel fold_right]. fold (numel S). fold K. fold k.
  nia.
Qed.
End ChannelReduction.

Section AverageChannelsMean.
Context {L : Library}.
Import AverageChannels.

Lemma mean_of_kind_defined (dt : torch_dtype) :
  is_floating_or_complex dt = true ->
  exists red, mean_of_kind (torch_kind dt) = Some red.
Proof.
  unfold is_floating_or_complex, mean_of_kind.
  destruct (torch_kind dt); intros H; try discriminate; eauto.
Qed.

Lemma mean_of_kind_undefined (dt : torch_dtype) :
  is_floating_or_complex dt = false ->
  mean_of_kind (torch_kind dt) = None.
Proof.
  unfold is_floating_or_complex, mean_of_kind.
  destruct (torch_kind dt); intros H; try discriminate; reflexivity.
Qed.

(** A range that passes the check never ends in a [ValueError]. *)
Lemma apply_to_chosen_valid_no_ValueError (self : t) (tensor : Tensor)
      (n : nat) :
  nth_error (tshape tensor) 1 = Some n ->
  valid_range self n ->
  forall msg, apply_to_chosen self tensor <> Raise (ValueError msg).
Proof.
  intros Hn Hok msg.
  destruct (tshape tensor) as [|N [|C S]] eqn:Hshape; try discriminate.
  simpl in Hn. injection Hn as ->.
  rewrite (apply_to_chosen_valid self tensor N n S Hshape Hok).
  destruct (slice_bounds n _) as [lo hi].
  destruct (mean_of_kind (torch_kind (tdtype tensor))); discriminate.
Qed.

(** On an element type that has a mean, a valid range yields the mean
    over the selected channels at every position of the other axes. *)
Lemma apply_to_chosen_mean (self : t) (tensor : Tensor)
      (N C : nat) (S : list nat) (red : list elem -> elem) :
  tshape tensor = N :: C :: S ->
  length (tdata tensor) = numel (tshape tensor) ->
  mean_of_kind (torch_kind (tdtype tensor)) = Some red ->
  valid_range self C ->
  exists r,
    apply_to_chosen self tensor = Ok r
    /\ tshape r = N :: 1 :: S
    /\ tdtype r = tdtype tensor
    /\ tdevice r = tdevice tensor
    /\ length (tdata r) = numel (N :: 1 :: S)
    /\ forall b p,
        b < N -> valid_index S p ->
        tensor_at r (b :: 0 :: p)
        = red (map (fun c => tensor_at tensor (b :: c :: p))
                   (selected C (effective_start self)
                             (effective_stop self C))).
Proof.
  intros Hshape Hlen Hred Hok.
  rewrite (apply_to_chosen_valid self tensor N C S Hshape Hok).
  unfold selected.
  pose proof (slice_bounds_ordered C
                {| start := Some (effective_start self);
                   stop := Some (effective_stop self C) |}) as Hord.
  destruct (slice_bounds C _) as [lo hi]. simpl in Hord.
  rewrite Hred. eexists. split; [reflexivity|].
  cbn [tshape tdtype tdevice tdata].
  repeat split.
  - rewrite reduce_axis_length. cbn [numel firstn skipn fold_right]. lia.
  - intros b p Hb Hp. unfold tensor_at. cbn [tshape tdata].
    rewrite Hshape in *.
    apply nth_reduce_channels; assumption.
Qed.
End AverageChannelsMean.

(** ** The claims about AverageChannels *)

Section AverageChannelsClaims.
Context {L : Library}.
Import AverageChannels.

(** C1: on a tensor with at least two axes and [n] channels the call
    raises the invalid-channel-range [ValueError] exactly when the
    bounds in force ([0] for a missing start, [n] for a missing stop)
    violate [start < stop <= n], and a range that passes raises no
    [ValueError] at all; the ranges (2, 2) and (0, 5) on four channels
    both raise; the constructor stores any bounds unchecked. *)
Theorem C1_invalid_range_iff :
  (forall (self : t) (tensor : Tensor) (n : nat),
      nth_error (tshape tensor) 1 = Some n ->
      (apply_to_chosen self tensor = Raise invalid_range
       <-> ~ valid_range self n)
      /\ (valid_range self n ->
          forall msg, apply_to_chosen self tensor <> Raise (ValueError msg)))
  /\ (forall (b : Base) (tensor : Tensor),
         nth_error (tshape tensor) 1 = Some 4 ->
         apply_to_chosen
           {| base := b; start_channel := Some 2%Z; stop_channel := Some 2%Z |}
           tensor = Raise invalid_range
         /\ apply_to_chosen
              {| base := b; start_channel := Some 0%Z; stop_channel := Some 5%Z |}
              tensor = Raise invalid_range)
  /\ (forall (s e : option Z) (kw : super_kwargs) (b : Base),
         base_init no_kwargs = Ok b ->
         __init__ s e kw
         = Ok {| base := b; start_channel := s; stop_channel := e |}).
Proof.
  split; [|split].
  - intros self tensor n Hn. split; [split|].
    + intros Hraise Hok.
      exact (apply_to_chosen_valid_no_ValueError self tensor n Hn Hok _ Hraise).
    + apply apply_to_chosen_invalid. exact Hn.
    + apply apply_to_chosen_valid_no_ValueError. exact Hn.
  - intros b tensor Hn. split; apply (apply_to_chosen_invalid _ _ 4 Hn);
      unfold valid_range, effective_start, effective_stop; simpl; lia.
  - intros s e kw b Hb. unfold __init__. rewrite Hb. reflexivity.
Qed.

(** C2, amended: for a tensor of floating-point or complex element type
    of shape [N, C, ...spatial] whose storage fills the shape, and a
    range with [start < stop <= C], the call returns a tensor of shape
    [N, 1, ...spatial] of the same element type whose element at
    [b, 0, p] is the mean of the input's elements at [b, c, p] over the
    selected channels [c]; these are [start, ..., stop - 1] when
    [start] is not negative.  With (1, 3) on [N, 4, H, W] the result has
    shape [N, 1, H, W] and holds the mean of channels 1 and 2.  On an
    integer or bool tensor a range that passes the check ends in the
    [RuntimeError] of [torch.mean]. *)
Theorem C2_mean_over_selected_channels :
  (forall (self : t) (tensor : Tensor) (N C : nat) (S : list nat),
      tshape tensor = N :: C :: S ->
      length (tdata tensor) = numel (tshape tensor) ->
      is_floating_or_complex (tdtype tensor) = true ->
      valid_range self C ->
      exists red r,
        mean_of_kind (torch_kind (tdtype tensor)) = Some red
        /\ apply_to_chosen self tensor = Ok r
        /\ tshape r = N :: 1 :: S
        /\ tdtype r = tdtype tensor
        /\ length (tdata r) = numel (N :: 1 :: S)
        /\ (forall b p,
               b < N -> valid_index S p ->
               tensor_at r (b :: 0 :: p)
               = red (map (fun c => tensor_at tensor (b :: c :: p))
                          (selected C (effective_start self)
                                    (effective_stop self C))))
        /\ ((0 <= effective_start self)%Z ->
            selected C (effective_start self) (effective_stop self C)
            = seq (Z.to_nat (effective_start self))
                  (Z.to_nat (effective_stop self C - effective_start self))))
  /\ (forall (bs : Base) (tensor : Tensor) (N H W : nat),
         tshape tensor = [N; 4; H; W] ->
         length (tdata tensor) = numel (tshape tensor) ->
         is_floating_or_complex (tdtype tensor) = true ->
         exists red r,
           mean_of_kind (torch_kind (tdtype tensor)) = Some red
           /\ apply_to_chosen
                {| base := bs; start_channel := Some 1%Z;
                   stop_channel := Some 3%Z |} tensor = Ok r
           /\ tshape r = [N; 1; H; W]
           /\ forall b h w,
               b < N -> h < H -> w < W ->
               tensor_at r [b; 0; h; w]
               = red [tensor_at tensor [b; 1; h; w];
                      tensor_at tensor [b; 2; h; w]])
  /\ (forall (self : t) (tensor : Tensor) (N C : nat) (S : list nat),
         tshape tensor = N :: C :: S ->
         is_floating_or_complex (tdtype tensor) = false ->
         valid_range self C ->
         apply_to_chosen self tensor
         = Raise (RuntimeError
                    "Can only calculate the mean of floating types")).
Proof.
  split; [|split].
  - intros self tensor N C S Hshape Hlen Hfc Hok.
    destruct (mean_of_kind_defined _ Hfc) as [red Hred].
    destruct (apply_to_chosen_mean self tensor N C S red Hshape Hlen Hred Hok)
      as (r & Hr & Hs & Hd & _ & Hl & Hat).
    exists red, r. repeat (split; [assumption|]).
    intros Hpos. unfold selected. unfold valid_range in Hok.
    rewrite slice_bounds_nonneg by lia.
    f_equal. lia.
  - intros bs tensor N H W Hshape Hlen Hfc.
    destruct (mean_of_kind_defined _ Hfc) as [red Hred].
    set (self := {| base := bs; start_channel := Some 1%Z;
                    stop_channel := Some 3%Z |}).
    assert (Hok : valid_range self 4)
      by (unfold valid_range, effective_start, effective_stop; simpl; lia).
    destruct (apply_to_chosen_mean self tensor N 4 [H; W] red Hshape Hlen
                                   Hred Hok)
      as (r & Hr & Hs & _ & _ & _ & Hat).
    exists red, r. repeat (split; [assumption|]).
    intros b h w Hb Hh Hw.
    rewrite (Hat b [h; w] Hb); [reflexivity|].
    repeat constructor; assumption.
  - intros self tensor N C S Hshape Hfc Hok.
    rewrite (apply_to_chosen_valid self tensor N C S Hshape Hok).
    destruct (slice_bounds C _) as [lo hi].
    rewrite (mean_of_kind_undefined _ Hfc). reflexivity.
Qed.

(** C9, amended: a negative [start_channel] [s] with [s < stop <= n]
    passes the check, no [ValueError] is raised, and the slice takes
    [s] from the end: the channels averaged are those from
    [max 0 (n + s)] up to, not including, the stop bound (itself taken
    from the end when negative), none at all when that bound does not
    exceed the first.  With [s = -1] and [stop = 2] on four channels no
    channel is selected and the mean is taken of no element. *)
Theorem C9_negative_start (self : t) (tensor : Tensor)
        (N n : nat) (S : list nat) (s : Z) :
  tshape tensor = N :: n :: S ->
  start_channel self = Some s ->
  (s < 0)%Z ->
  (s < effective_stop self n <= Z.of_nat n)%Z ->
  let lo := Z.to_nat (Z.max 0 (Z.of_nat n + s)) in
  let hi := Z.to_nat (from_end (Z.of_nat n) (effective_stop self n)) in
  (forall msg, apply_to_chosen self tensor <> Raise (ValueError msg))
  /\ selected n s (effective_stop self n) = seq lo (hi - lo)
  /\ (forall red,
         length (tdata tensor) = numel (tshape tensor) ->
         mean_of_kind (torch_kind (tdtype tensor)) = Some red ->
         exists r,
           apply_to_chosen self tensor = Ok r
           /\ tshape r = N :: 1 :: S
           /\ forall b p,
               b < N -> valid_index S p ->
               tensor_at r (b :: 0 :: p)
               = red (map (fun c => tensor_at tensor (b :: c :: p))
                          (seq lo (hi - lo))))
  /\ selected 4 (-1) 2 = [].
Proof.
  intros Hshape Hs Hneg Hrange lo hi.
  assert (Hstart : effective_start self = s)
    by (unfold effective_start; rewrite Hs; reflexivity).
  assert (Hok : valid_range self n)
    by (unfold valid_range; rewrite Hstart; exact Hrange).
  assert (Hsel : selected n s (effective_stop self n) = seq lo (hi - lo)).
  { unfold selected. rewrite slice_bounds_valid by exact Hrange.
    cbv zeta. subst lo hi. unfold from_end.
    rewrite (proj2 (Z.ltb_lt s 0) Hneg).
    destruct (Z.ltb_spec (effective_stop self n) 0); f_equal; lia. }
  split; [|split; [exact Hsel|split; [|reflexivity]]].
  - apply apply_to_chosen_valid_no_ValueError with (n := n); [|exact Hok].
    rewrite Hshape. reflexivity.
  - intros red Hlen Hred.
    destruct (apply_to_chosen_mean self tensor N n S red Hshape Hlen Hred Hok)
      as (r & Hr & Hsh & _ & _ & _ & Hat).
    exists r. split; [exact Hr|]. split; [exact Hsh|].
    intros b p Hb Hp. rewrite (Hat b p Hb Hp), Hstart, Hsel. reflexivity.
Qed.

(** C10: on a tensor with fewer than two axes the call fails on
    [tensor.shape[1]] with the [IndexError] of the shape access, whatever
    the bounds are, and not with the invalid-channel-range error: the
    range check is reached only with at least two axes. *)
Theorem C10_fewer_than_two_axes (self : t) (tensor : Tensor) :
  length (tshape tensor) < 2 ->
  apply_to_chosen self tensor = Raise (IndexError "tuple index out of range")
  /\ apply_to_chosen self tensor <> Raise invalid_range
  /\ shape_getitem (tshape tensor) 1
     = Raise (IndexError "tuple index out of range").
Proof.
  intros Hlen. rewrite (apply_to_chosen_short self tensor Hlen).
  split; [reflexivity|]. split; [discriminate|].
  unfold shape_getitem.
  destruct (tshape tensor) as [|n0 [|n1 ds]]; simpl in *;
    [reflexivity | reflexivity | lia].
Qed.
End AverageChannelsClaims.

(** ** Conversions between the two representations *)

Section ConversionFacts.
Context {L : Library}.

(** Widening an unsigned 16-bit value to 32 signed bits keeps it. *)
Lemma cast_uint16_int32 (v : elem) :
  valid_elem (KInt false 16) v = true ->
  cast (KInt true 32) v = v.
Proof.
  destruct v as [b|z|x|re im]; simpl; try discriminate.
  unfold in_range, wrap. intros H.
  apply andb_true_iff in H. destruct H as [H0 H1].
  apply Z.leb_le in H0. apply Z.ltb_lt in H1.
  change (2 ^ 16)%Z with 65536%Z in H1.
  change (2 ^ (32 - 1))%Z with 2147483648%Z.
  change (2 ^ 32)%Z with 4294967296%Z.
  rewrite Z.mod_small by lia. f_equal. lia.
Qed.

Lemma map_cast_uint16_int32 (l : list elem) :
  forallb (valid_elem (KInt false 16)) l = true ->
  map (cast (KInt true 32)) l = l.
Proof.
  induction l as [|v l IH]; cbn [map forallb]; [reflexivity|].
  intros H. apply andb_true_iff in H. destruct H as [Hv Hl].
  now rewrite cast_uint16_int32, IH.
Qed.


Lemma ensure_torch_uint16 (self : EnsureTorch.t) (a : ndarray) :
  adtype a = np_uint16 ->
  EnsureTorch.apply_to_chosen self (VArray a)
  = Ok (VTensor {| tdtype := torch_int32;
                   tshape := ashape a;
                   tdata := map (cast (KInt true 32)) (adata a);
                   tdevice := device_cpu;
                   trequires_grad := false |}).
Proof.
  intros Hd. unfold EnsureTorch.apply_to_chosen. rewrite Hd. reflexivity.
Qed.

Lemma ensure_torch_supported (self : EnsureTorch.t) (a : ndarray)
      (d : torch_dtype) :
  torch_of_np_dtype (adtype a) = Some d ->
  EnsureTorch.apply_to_chosen self (VArray a)
  = Ok (VTensor {| tdtype := d;
                   tshape := ashape a;
                   tdata := adata a;
                   tdevice := device_cpu;
                   trequires_grad := false |}).
Proof.
  intros Hd. unfold EnsureTorch.apply_to_chosen.
  assert (Hne : np_dtype_eqb (adtype a) np_uint16 = false)
    by (destruct (adtype a); try reflexivity; discriminate).
  rewrite Hne. unfold torch_from_numpy. rewrite Hd. reflexivity.
Qed.

Lemma ensure_torch_unsupported (self : EnsureTorch.t) (a : ndarray) :
  adtype a <> np_uint16 ->
  torch_of_np_dtype (adtype a) = None ->
  EnsureTorch.apply_to_chosen self (VArray a)
  = Raise (TypeError "can't convert np.ndarray of this type").
Proof.
  intros Hne Hd. unfold EnsureTorch.apply_to_chosen.
  assert (Hb : np_dtype_eqb (adtype a) np_uint16 = false)
    by (unfold np_dtype_eqb; destruct (np_dtype_eq_dec (adtype a) np_uint16);
        [contradiction | reflexivity]).
  rewrite Hb. unfold torch_from_numpy. rewrite Hd. reflexivity.
Qed.

(** Detached and on the host, a tensor converts unless numpy lacks its
    element type. *)
Lemma ensure_numpy_tensor (self : EnsureNumpy.t) (x : Tensor)
      (nd : np_dtype) :
  np_of_torch_dtype (tdtype x) = Some nd ->
  EnsureNumpy.apply_to_chosen self (VTensor x)
  = Ok (VArray {| adtype := nd; ashape := tshape x; adata := tdata x |}).
Proof.
  intros Hd. unfold EnsureNumpy.apply_to_chosen, tensor_numpy. simpl.
  rewrite Hd. reflexivity.
Qed.

(** *** Conversion of elements *)







End ConversionFacts.

(** ** The claims about the conversions and about AsType *)

Section ConversionClaims.
Context {L : Library}.

(** C3, amended: on the host array of shape [2,4,3,3] of unsigned
    16-bit integers all equal to 5, [EnsureTorch] yields a tensor of
    shape [2,4,3,3] of signed 32-bit integers all equal to 5;
    [AverageChannels] with the range (0, 4) passes the range check on it
    and then fails with the [RuntimeError] of [torch.mean], which takes
    no mean of an integer tensor. *)
Theorem C3_scenario (et : EnsureTorch.t) (b : Base) :
  EnsureTorch.apply_to_chosen et (VArray scenario_array)
  = Ok (VTensor scenario_tensor)
  /\ AverageChannels.valid_range
       {| AverageChannels.base := b;
          AverageChannels.start_channel := Some 0%Z;
          AverageChannels.stop_channel := Some 4%Z |} 4
  /\ AverageChannels.apply_to_chosen
       {| AverageChannels.base := b;
          AverageChannels.start_channel := Some 0%Z;
          AverageChannels.stop_channel := Some 4%Z |} scenario_tensor
     = Raise (RuntimeError "Can only calculate the mean of floating types").
Proof.
  split; [|split].
  - rewrite ensure_torch_uint16 by reflexivity.
    unfold scenario_tensor, scenario_array; cbn [ashape adata].
    rewrite map_cast_uint16_int32 by reflexivity. reflexivity.
  - unfold AverageChannels.valid_range, AverageChannels.effective_start,
      AverageChannels.effective_stop; simpl; lia.
  - rewrite (apply_to_chosen_valid _ scenario_tensor 2 4 [3; 3]);
      [reflexivity | reflexivity |].
    unfold AverageChannels.valid_range, AverageChannels.effective_start,
      AverageChannels.effective_stop; simpl; lia.
Qed.



(** C6, amended: for every name that does not resolve to an element
    type, constructing [AsType] fails, so that no object exists whose
    [apply_to_chosen] could fail later; once the base class is
    initialised the failure is [TypeError("torch.<name>")] when torch
    binds the name to something else, and the [AttributeError] of
    [getattr] when torch does not bind the name. *)
Theorem C6_invalid_dtype_name (name : string) (non_blocking : bool)
        (kw : super_kwargs) :
  (forall d, torch_namespace name <> Some (AttrDtype d)) ->
  (forall self, AsType.__init__ name non_blocking kw <> Ok self)
  /\ (forall b,
         base_init kw = Ok b ->
         (torch_namespace name = Some AttrOther ->
          AsType.__init__ name non_blocking kw
          = Raise (TypeError (String.append "torch." name)))
         /\ (torch_namespace name = None ->
             AsType.__init__ name non_blocking kw
             = Raise (AttributeError
                        (String.append "module 'torch' has no attribute "
                                       name)))).
Proof.
  intros Hbad. unfold AsType.__init__, torch_getattr. split.
  - intros self. destruct (base_init kw) as [b|e]; simpl; [|discriminate].
    destruct (torch_namespace name) as [[d|]|] eqn:Hn; simpl;
      try discriminate.
    exfalso. exact (Hbad d eq_refl).
  - intros b Hb. rewrite Hb. simpl.
    split; intros Hn; rewrite Hn; reflexivity.
Qed.


(** C8: [EnsureTorch] returns a native tensor as it is, and applying it
    to the outcome of applying it to a host array changes nothing. *)
Theorem C8_identity_and_idempotence (self : EnsureTorch.t) :
  (forall t : Tensor,
      EnsureTorch.apply_to_chosen self (VTensor t) = Ok (VTensor t))
  /\ (forall a : ndarray,
         (v <- EnsureTorch.apply_to_chosen self (VArray a) ;;
          EnsureTorch.apply_to_chosen self v)
         = EnsureTorch.apply_to_chosen self (VArray a)).
Proof.
  split; [reflexivity|].
  intros a.
  destruct (EnsureTorch.apply_to_chosen self (VArray a)) as [v|e] eqn:Hv;
    [|reflexivity].
  unfold EnsureTorch.apply_to_chosen in Hv.
  destruct (torch_from_numpy _) as [r|e]; simpl in Hv; [|discriminate].
  injection Hv as <-. reflexivity.
Qed.
End ConversionClaims.

(** ** The claims at concrete inputs

    The calls are run on [exact_library]. *)

Ltac range_computed :=
  unfold AverageChannels.valid_range, AverageChannels.effective_start,
    AverageChannels.effective_stop, average;
  simpl; lia.

Lemma C1_witness :
  nth_error (tshape float_row) 1 = Some 4
  /\ (AverageChannels.apply_to_chosen (average no_base (Some 2%Z) None)
                                      float_row
      = Raise AverageChannels.invalid_range
      <-> ~ AverageChannels.valid_range (average no_base (Some 2%Z) None) 4).
Proof.
  split; [reflexivity|].
  apply (proj1 (@C1_invalid_range_iff exact_library)
               (average no_base (Some 2%Z) None) float_row 4).
  reflexivity.
Defined.

(** The range (1, 3) on the integer tensor passes the check, and the
    call does not return. *)
Lemma C2_counterexample :
  tshape int_tensor = [1; 4; 1; 1]
  /\ length (tdata int_tensor) = numel (tshape int_tensor)
  /\ AverageChannels.valid_range (average no_base (Some 1%Z) (Some 3%Z)) 4
  /\ ~ succeeds (AverageChannels.apply_to_chosen
                   (average no_base (Some 1%Z) (Some 3%Z)) int_tensor).
Proof.
  split; [reflexivity|]. split; [reflexivity|]. split.
  - range_computed.
  - intros [r Hr]. vm_compute in Hr. discriminate.
Qed.

Lemma C2_witness :
  exists red r,
    mean_of_kind (torch_kind (tdtype float_batch)) = Some red
    /\ AverageChannels.apply_to_chosen
         (average no_base (Some 1%Z) (Some 3%Z)) float_batch = Ok r
    /\ tshape r = [2; 1; 1; 2]
    /\ tdtype r = tdtype float_batch
    /\ length (tdata r) = numel [2; 1; 1; 2]
    /\ (forall b p,
           b < 2 -> valid_index [1; 2] p ->
           tensor_at r (b :: 0 :: p)
           = red (map (fun c => tensor_at float_batch (b :: c :: p))
                      (selected 4 1 3)))
    /\ ((0 <= 1)%Z -> selected 4 1 3 = seq 1 2).
Proof.
  apply (proj1 (@C2_mean_over_selected_channels exact_library)
               (average no_base (Some 1%Z) (Some 3%Z)) float_batch
               2 4 [1; 2]).
  - reflexivity.
  - reflexivity.
  - reflexivity.
  - range_computed.
Defined.

(** The mean of channels 1 and 2 of the batch, computed. *)
Example average_channels_1_3_run :
  AverageChannels.apply_to_chosen
    (average no_base (Some 1%Z) (Some 3%Z)) float_batch
  = Ok (cpu_tensor torch_float32 [2; 1; 1; 2] (floats [4; 5; 12; 13]%Z)).
Proof. vm_compute. reflexivity. Qed.

(** [EnsureTorch] on the scenario's array gives an integer tensor, on
    which [AverageChannels] returns nothing. *)
Lemma C3_counterexample :
  ~ exists t r,
      EnsureTorch.apply_to_chosen ensure_torch (VArray scenario_array)
      = Ok (VTensor t)
      /\ AverageChannels.apply_to_chosen
           (average no_base (Some 0%Z) (Some 4%Z)) t = Ok r
      /\ tshape r = [2; 1; 3; 3]
      /\ Forall (fun v => v = SFloat (float_of_int 5)) (tdata r).
Proof.
  intros (t & r & Ht & Hr & _).
  vm_compute in Ht. injection Ht as <-.
  vm_compute in Hr. discriminate.
Qed.




(** No attribute of torch is called float33: the constructor fails in
    [getattr], with an [AttributeError] and not with the [TypeError] of
    the check that follows. *)
Lemma C6_counterexample :
  (forall d, @torch_namespace exact_library "float33" <> Some (AttrDtype d))
  /\ @AsType.__init__ exact_library "float33" false []
     = Raise (AttributeError "module 'torch' has no attribute float33")
  /\ forall msg,
      @AsType.__init__ exact_library "float33" false []
      <> Raise (TypeError msg).
Proof.
  split; [|split].
  - intros d. vm_compute. discriminate.
  - reflexivity.
  - intros msg. vm_compute. discriminate.
Qed.

Lemma C6_witness :
  @AsType.__init__ exact_library "nn" false [] = Raise (TypeError "torch.nn").
Proof.
  assert (Hbad : forall d,
             @torch_namespace exact_library "nn" <> Some (AttrDtype d))
    by (intros d; vm_compute; discriminate).
  exact (proj1 (proj2 (@C6_invalid_dtype_name exact_library "nn" false []
                                              Hbad)
                      [] eq_refl) eq_refl).
Defined.


(** With four channels and the range (-5, 2) the channels averaged are
    0 and 1: the first of them is not channel 4 + (-5). *)
Lemma C9_counterexample :
  (-5 < 0)%Z /\ (-5 < 2 <= 4)%Z
  /\ selected 4 (-5) 2 = [0; 1]
  /\ hd_error (map Z.of_nat (selected 4 (-5) 2)) <> Some (4 + -5)%Z
  /\ AverageChannels.apply_to_chosen
       (average no_base (Some (-5)%Z) (Some 2%Z)) float_row
     = Ok (cpu_tensor torch_float32 [1; 1] [SFloat (Qmake 3 2)]).
Proof.
  split; [lia|]. split; [lia|]. split; [reflexivity|].
  split; [vm_compute; discriminate|]. vm_compute. reflexivity.
Qed.

Lemma C9_witness :
  (forall msg,
      AverageChannels.apply_to_chosen
        (average no_base (Some (-1)%Z) (Some 2%Z)) float_row
      <> Raise (ValueError msg))
  /\ selected 4 (-1) 2 = seq 3 (2 - 3).
Proof.
  pose proof (@C9_negative_start exact_library
                (average no_base (Some (-1)%Z) (Some 2%Z)) float_row
                1 4 [] (-1)%Z eq_refl eq_refl) as H.
  assert (H1 : (-1 < 0)%Z) by lia.
  assert (H2 : (-1 < AverageChannels.effective_stop
                       (average no_base (Some (-1)%Z) (Some 2%Z)) 4 <= 4)%Z)
    by range_computed.
  destruct (H H1 H2) as (Ha & Hb & _).
  split; [exact Ha | exact Hb].
Defined.

Lemma C10_witness :
  length (tshape float_vector) < 2
  /\ AverageChannels.apply_to_chosen (average no_base None None) float_vector
     = Raise (IndexError "tuple index out of range").
Proof.
  assert (Hlen : length (tshape float_vector) < 2) by (simpl; lia).
  split; [exact Hlen|].
  exact (proj1 (@C10_fewer_than_two_axes exact_library
                  (average no_base None None) float_vector Hlen)).
Defined.


(** * Further properties *)

(** ** Flat storage, continued *)

Section StorageBlocks.
Variable A : Type.
Implicit Types (l : list A).

Lemma firstn_plus (a b : nat) l :
  firstn (a + b) l = firstn a l ++ firstn b (skipn a l).
Proof.
  revert l; induction a as [|a IH]; intros l; [reflexivity|].
  destruct l as [|x l]; simpl.
  - now rewrite firstn_nil.
  - now rewrite IH.
Qed.

(** The blocks, put end to end, are the storage they were cut from. *)
Lemma concat_chunks (n size : nat) l :
  concat (chunks n size l) = firstn (n * size) l.
Proof.
  revert l; induction n as [|n IH]; intros l; simpl; [reflexivity|].
  now rewrite IH, firstn_plus.
Qed.

(** The whole extent of an axis is the whole storage. *)
Lemma slice_axis_full (axis : nat) (shape : list nat) l :
  let outer := numel (firstn axis shape) in
  let dim := nth axis shape 0 in
  let inner := numel (skipn (S axis) shape) in
  length l = outer * (dim * inner) ->
  slice_axis axis 0 dim shape l = l.
Proof.
  intros outer dim inner Hlen. unfold slice_axis. fold outer dim inner.
  rewrite (map_ext_in _ (fun ch => ch)).
  - rewrite map_id, concat_chunks. apply firstn_all2. lia.
  - intros ch Hin.
    assert (Hu : Forall (fun ch => length ch = dim * inner)
                        (chunks outer (dim * inner) l))
      by (apply chunks_uniform; lia).
    rewrite Forall_forall in Hu. specialize (Hu ch Hin).
    rewrite Nat.sub_0_r. simpl skipn. apply firstn_all2. lia.
Qed.
End StorageBlocks.

(** ** AverageChannels, continued *)

Section AverageChannelsFurther.
Context {L : Library}.
Import AverageChannels.

Lemma valid_range_dec (self : t) (n : nat) :
  {valid_range self n} + {~ valid_range self n}.
Proof.
  unfold valid_range.
  destruct (Z_lt_dec (effective_start self) (effective_stop self n));
    destruct (Z_le_dec (effective_stop self n) (Z.of_nat n));
    [left | right | right | right]; lia.
Qed.

(** X1: the call returns a tensor exactly when the input has at least
    two axes, the bounds in force satisfy [start < stop <= n] for its
    [n] channels, and its element type is floating point or complex. *)
Theorem average_channels_succeeds_iff (self : t) (tensor : Tensor) :
  succeeds (apply_to_chosen self tensor)
  <-> exists n,
      nth_error (tshape tensor) 1 = Some n
      /\ valid_range self n
      /\ is_floating_or_complex (tdtype tensor) = true.
Proof.
  split.
  - intros [r Hr].
    destruct (tshape tensor) as [|N [|C S]] eqn:Hshape;
      try (rewrite apply_to_chosen_short in Hr
             by (rewrite Hshape; simpl; lia); discriminate).
    exists C. split; [reflexivity|].
    destruct (valid_range_dec self C) as [Hok|Hbad].
    + split; [exact Hok|].
      rewrite (apply_to_chosen_valid self tensor N C S Hshape Hok) in Hr.
      destruct (slice_bounds C _) as [lo hi].
      destruct (is_floating_or_complex (tdtype tensor)) eqn:Hfc;
        [reflexivity|].
      rewrite (mean_of_kind_undefined _ Hfc) in Hr. discriminate.
    + rewrite (apply_to_chosen_invalid self tensor C) in Hr;
        [discriminate | rewrite Hshape; reflexivity | exact Hbad].
  - intros (n & Hn & Hok & Hfc).
    destruct (tshape tensor) as [|N [|C S]] eqn:Hshape; try discriminate.
    simpl in Hn. injection Hn as <-.
    rewrite (apply_to_chosen_valid self tensor N C S Hshape Hok).
    destruct (slice_bounds C _) as [lo hi].
    destruct (mean_of_kind_defined _ Hfc) as [red ->].
    eexists; reflexivity.
Qed.

(** X2: when the bounds in force are the whole channel axis (as with
    both bounds [None] on a tensor with at least one channel), the call
    is [torch.mean(tensor, 1, keepdim=True)] on the tensor itself,
    errors included; with both bounds [None] and no channel it raises the
    invalid-channel-range error. *)
Theorem average_channels_whole_axis (self : t) (tensor : Tensor)
        (N C : nat) (S : list nat) :
  tshape tensor = N :: C :: S ->
  length (tdata tensor) = numel (tshape tensor) ->
  (effective_start self = 0%Z /\ effective_stop self C = Z.of_nat C
   /\ 0 < C ->
   apply_to_chosen self tensor = torch_mean tensor 1 true)
  /\ (start_channel self = None /\ stop_channel self = None /\ C = 0 ->
      apply_to_chosen self tensor = Raise invalid_range).
Proof.
  intros Hshape Hlen. split.
  - intros (Hs & He & HC).
    assert (Hok : valid_range self C) by (unfold valid_range; lia).
    rewrite (apply_to_chosen_valid self tensor N C S Hshape Hok).
    rewrite Hs, He, slice_bounds_nonneg by lia.
    rewrite Nat2Z.id. simpl (Z.to_nat 0). rewrite Nat.sub_0_r.
    rewrite Hshape in Hlen.
    rewrite slice_axis_all by exact Hlen.
    rewrite (slice_axis_full _ 1 (N :: C :: S))
      by (cbn [numel firstn skipn nth fold_right] in *; lia).
    unfold torch_mean. rewrite Hshape. reflexivity.
  - intros (Hs & He & HC). subst C.
    apply (apply_to_chosen_invalid self tensor 0);
      [rewrite Hshape; reflexivity|].
    unfold valid_range, effective_start, effective_stop.
    rewrite Hs, He. simpl. lia.
Qed.

(** X3: the outcome depends on the selected channels only: two tensors
    of one shape and element type that agree on the selected channels
    give results that agree everywhere. *)
Theorem average_channels_selected_only (self : t) (t1 t2 : Tensor)
        (N C : nat) (S : list nat) :
  tshape t1 = N :: C :: S ->
  tshape t2 = N :: C :: S ->
  length (tdata t1) = numel (tshape t1) ->
  length (tdata t2) = numel (tshape t2) ->
  tdtype t1 = tdtype t2 ->
  is_floating_or_complex (tdtype t1) = true ->
  valid_range self C ->
  (forall b c p,
      b < N ->
      In c (selected C (effective_start self) (effective_stop self C)) ->
      valid_index S p ->
      tensor_at t1 (b :: c :: p) = tensor_at t2 (b :: c :: p)) ->
  exists r1 r2,
    apply_to_chosen self t1 = Ok r1
    /\ apply_to_chosen self t2 = Ok r2
    /\ tshape r1 = tshape r2
    /\ forall b p,
        b < N -> valid_index S p ->
        tensor_at r1 (b :: 0 :: p) = tensor_at r2 (b :: 0 :: p).
Proof.
  intros Hs1 Hs2 Hl1 Hl2 Hd Hfc Hok Hagree.
  destruct (mean_of_kind_defined _ Hfc) as [red Hred].
  destruct (apply_to_chosen_mean self t1 N C S red Hs1 Hl1 Hred Hok)
    as (r1 & Hr1 & Hsh1 & _ & _ & _ & Hat1).
  rewrite Hd in Hred.
  destruct (apply_to_chosen_mean self t2 N C S red Hs2 Hl2 Hred Hok)
    as (r2 & Hr2 & Hsh2 & _ & _ & _ & Hat2).
  exists r1, r2. repeat split; try assumption; [congruence|].
  intros b p Hb Hp. rewrite (Hat1 b p Hb Hp), (Hat2 b p Hb Hp).
  f_equal. apply map_ext_in. intros c Hc. apply Hagree; assumption.
Qed.

(** X4: the result has one channel, so a second call with the same
    object goes through, keeping the shape, when its bounds allow a
    single channel, and raises the invalid-channel-range error when they
    do not (a stop above 1, a start of 1 or more). *)
Theorem average_channels_twice (self : t) (tensor r : Tensor) :
  apply_to_chosen self tensor = Ok r ->
  (exists N S, tshape r = N :: 1 :: S)
  /\ (valid_range self 1 ->
      exists r', apply_to_chosen self r = Ok r' /\ tshape r' = tshape r)
  /\ (~ valid_range self 1 ->
      apply_to_chosen self r = Raise invalid_range).
Proof.
  intros Hr.
  destruct (proj1 (average_channels_succeeds_iff self tensor)
                  (ex_intro _ r Hr)) as (C & Hn & Hok & Hfc).
  destruct (tshape tensor) as [|N [|C' S]] eqn:Hshape; try discriminate.
  simpl in Hn. injection Hn as ->.
  rewrite (apply_to_chosen_valid self tensor N C S Hshape Hok) in Hr.
  destruct (slice_bounds C _) as [lo hi].
  destruct (mean_of_kind_defined _ Hfc) as [red Hred].
  rewrite Hred in Hr. injection Hr as <-.
  cbn [tshape]. split; [exists N, S; reflexivity|]. split.
  - intros Hok1.
    match goal with
    | |- exists r', apply_to_chosen self ?x = _ /\ _ =>
        rewrite (apply_to_chosen_valid self x N 1 S eq_refl Hok1)
    end.
    destruct (slice_bounds 1 _) as [lo' hi']. cbn [tdtype].
    rewrite Hred. eexists; split; reflexivity.
  - intros Hbad. apply (apply_to_chosen_invalid self _ 1);
      [reflexivity | exact Hbad].
Qed.

(** X5: a stop bound that is zero or negative is refused whenever the
    start is missing or not negative: counting the stop from the end is
    not available on its own. *)
Theorem average_channels_stop_from_end_refused (self : t) (tensor : Tensor)
        (n : nat) (e : Z) :
  nth_error (tshape tensor) 1 = Some n ->
  stop_channel self = Some e ->
  (e <= 0)%Z ->
  (0 <= effective_start self)%Z ->
  apply_to_chosen self tensor = Raise invalid_range.
Proof.
  intros Hn He Hneg Hs.
  apply (apply_to_chosen_invalid self tensor n Hn).
  unfold valid_range, effective_stop. rewrite He. lia.
Qed.
End AverageChannelsFurther.

(** ** The conversions, continued *)

Section ConversionsFurther.
Context {L : Library}.

Lemma wrap_int32_in_range (z : Z) : in_range true 32 (wrap true 32 z) = true.
Proof.
  unfold in_range, wrap.
  change (2 ^ (32 - 1))%Z with 2147483648%Z.
  change (2 ^ 32)%Z with 4294967296%Z.
  pose proof (Z.mod_pos_bound (z + 2147483648) 4294967296 eq_refl) as H.
  apply andb_true_iff. split; [apply Z.leb_le | apply Z.ltb_lt]; lia.
Qed.

Lemma cast_int32_valid (l : list elem) :
  forallb (valid_elem (KInt true 32)) (map (cast (KInt true 32)) l) = true.
Proof.
  induction l as [|v l IH]; [reflexivity|].
  cbn [map forallb]. rewrite IH, andb_true_r.
  apply wrap_int32_in_range.
Qed.

Lemma torch_kind_of_np (nd : np_dtype) (d : torch_dtype) :
  torch_of_np_dtype nd = Some d -> torch_kind d = np_kind nd.
Proof.
  destruct nd; simpl; intros H; inversion H; reflexivity.
Qed.

Lemma np_kind_of_torch (d : torch_dtype) (nd : np_dtype) :
  np_of_torch_dtype d = Some nd ->
  np_kind nd = torch_kind d
  /\ nd <> np_uint16
  /\ torch_of_np_dtype nd = Some d.
Proof.
  destruct d; simpl; intros H; inversion H;
    repeat split; try reflexivity; discriminate.
Qed.

Lemma np_of_torch_defined (d : torch_dtype) :
  d <> torch_bfloat16 -> exists nd, np_of_torch_dtype d = Some nd.
Proof.
  destruct d; intros H; try (eexists; reflexivity). contradiction.
Qed.

Lemma tensor_cpu_detach_id (t : Tensor) :
  tdevice t = device_cpu ->
  trequires_grad t = false ->
  tensor_cpu (tensor_detach t) = t.
Proof.
  destruct t as [d sh da dev g]; simpl; intros -> ->. reflexivity.
Qed.

(** X6: [EnsureNumpy] returns a host array as it is, whatever it returns
    is a host array, and a second application changes nothing. *)
Theorem ensure_numpy_normalises (self : EnsureNumpy.t) :
  (forall a : ndarray,
      EnsureNumpy.apply_to_chosen self (VArray a) = Ok (VArray a))
  /\ (forall v w : value,
         EnsureNumpy.apply_to_chosen self v = Ok w ->
         exists a, w = VArray a)
  /\ (forall v : value,
         (w <- EnsureNumpy.apply_to_chosen self v ;;
          EnsureNumpy.apply_to_chosen self w)
         = EnsureNumpy.apply_to_chosen self v).
Proof.
  assert (Harr : forall v w,
             EnsureNumpy.apply_to_chosen self v = Ok w ->
             exists a, w = VArray a).
  { intros [a|x] w; unfold EnsureNumpy.apply_to_chosen.
    - intros H; injection H as <-. eauto.
    - destruct (tensor_numpy _) as [r|e]; simpl; intros H;
        [injection H as <-; eauto | discriminate]. }
  split; [reflexivity|]. split; [exact Harr|].
  intros v.
  destruct (EnsureNumpy.apply_to_chosen self v) as [w|e] eqn:Hv;
    [|reflexivity].
  destruct (Harr v w Hv) as [a ->]. reflexivity.
Qed.

(** X7: on a tensor [EnsureNumpy] fails only for the element type numpy
    lacks, bfloat16, and then with the [TypeError] of [Tensor.numpy]; on
    every other tensor, on whatever device and in the autograd graph or
    not, it returns an array of the same shape, elements and kind of
    element type, also where [Tensor.numpy] on the tensor itself raises
    (a tensor on an accelerator, a tensor that requires grad). *)
Theorem ensure_numpy_fails_only_on_bfloat16 (self : EnsureNumpy.t)
        (t : Tensor) :
  (tdtype t = torch_bfloat16 ->
   EnsureNumpy.apply_to_chosen self (VTensor t)
   = Raise (TypeError "Got unsupported ScalarType BFloat16"))
  /\ (tdtype t <> torch_bfloat16 ->
      exists a,
        EnsureNumpy.apply_to_chosen self (VTensor t) = Ok (VArray a)
        /\ ashape a = tshape t
        /\ adata a = tdata t
        /\ np_kind (adtype a) = torch_kind (tdtype t))
  /\ (tdevice t <> device_cpu \/ trequires_grad t = true ->
      ~ succeeds (tensor_numpy t)).
Proof.
  split; [|split].
  - intros Hd. unfold EnsureNumpy.apply_to_chosen, tensor_numpy. simpl.
    rewrite Hd. reflexivity.
  - intros Hd. destruct (np_of_torch_defined _ Hd) as [nd Hnd].
    rewrite (ensure_numpy_tensor self t nd Hnd).
    eexists. split; [reflexivity|]. cbn [ashape adata adtype].
    repeat split. apply (np_kind_of_torch _ _ Hnd).
  - intros Hbare [a Ha]. unfold tensor_numpy in Ha.
    destruct (tdevice t); [|discriminate].
    destruct (trequires_grad t); [discriminate|].
    destruct Hbare as [Hdev|Hgrad]; [contradiction | discriminate].
Qed.

(** X8: whatever [EnsureTorch] returns is a native tensor; made from a
    host array it is on the host, outside the autograd graph, of the
    array's shape and number of elements, and its elements are values of
    its element type when the array's were values of the array's. *)
Theorem ensure_torch_output (self : EnsureTorch.t) (v w : value) :
  EnsureTorch.apply_to_chosen self v = Ok w ->
  exists t,
    w = VTensor t
    /\ forall a,
        v = VArray a ->
        tdevice t = device_cpu
        /\ trequires_grad t = false
        /\ tshape t = ashape a
        /\ length (tdata t) = length (adata a)
        /\ (forallb (valid_elem (np_kind (adtype a))) (adata a) = true ->
            forallb (valid_elem (torch_kind (tdtype t))) (tdata t) = true).
Proof.
  destruct v as [a|x].
  - destruct (np_dtype_eq_dec (adtype a) np_uint16) as [Hu|Hu].
    + rewrite (ensure_torch_uint16 self a Hu). intros H; injection H as <-.
      eexists. split; [reflexivity|]. intros a' Ha. injection Ha as <-.
      cbn [tdevice trequires_grad tshape tdata tdtype].
      rewrite length_map. repeat split.
      intros _. apply cast_int32_valid.
    + destruct (torch_of_np_dtype (adtype a)) as [d|] eqn:Hd.
      * rewrite (ensure_torch_supported self a d Hd).
        intros H; injection H as <-.
        eexists. split; [reflexivity|]. intros a' Ha. injection Ha as <-.
        cbn [tdevice trequires_grad tshape tdata tdtype]. repeat split.
        rewrite (torch_kind_of_np _ _ Hd). trivial.
      * rewrite (ensure_torch_unsupported self a Hu Hd). discriminate.
  - intros H; injection H as <-. eexists. split; [reflexivity|].
    intros a Ha. discriminate.
Qed.

(** X9: from a tensor to a host array and back: for every tensor whose
    element type numpy has, [EnsureTorch] after [EnsureNumpy] returns the
    tensor with its element type, shape and elements, on the host and
    outside the autograd graph; it is the tensor itself when that is
    where it was. *)
Theorem tensor_round_trip (et : EnsureTorch.t) (en : EnsureNumpy.t)
        (t : Tensor) :
  tdtype t <> torch_bfloat16 ->
  (v <- EnsureNumpy.apply_to_chosen en (VTensor t) ;;
   EnsureTorch.apply_to_chosen et v)
  = Ok (VTensor (tensor_cpu (tensor_detach t)))
  /\ (tdevice t = device_cpu -> trequires_grad t = false ->
      (v <- EnsureNumpy.apply_to_chosen en (VTensor t) ;;
       EnsureTorch.apply_to_chosen et v) = Ok (VTensor t)).
Proof.
  intros Hd. destruct (np_of_torch_defined _ Hd) as [nd Hnd].
  destruct (np_kind_of_torch _ _ Hnd) as (_ & Hne & Hback).
  assert (Hrt : (v <- EnsureNumpy.apply_to_chosen en (VTensor t) ;;
                 EnsureTorch.apply_to_chosen et v)
                = Ok (VTensor (tensor_cpu (tensor_detach t)))).
  { rewrite (ensure_numpy_tensor en t nd Hnd). cbn [bind].
    rewrite (ensure_torch_supported et _ (tdtype t)) by exact Hback.
    reflexivity. }
  split; [exact Hrt|].
  intros Hdev Hgrad. rewrite Hrt.
  now rewrite tensor_cpu_detach_id.
Qed.
End ConversionsFurther.

(** ** AsType, continued, and the transformations in sequence *)

Section SequencesFurther.
Context {L : Library}.

Lemma torch_dtype_eqb_refl (d : torch_dtype) : torch_dtype_eqb d d = true.
Proof.
  unfold torch_dtype_eqb. destruct (torch_dtype_eq_dec d d); congruence.
Qed.

Lemma tensor_type_fields (t : Tensor) (d : torch_dtype) (nb : bool) :
  tdtype (tensor_type t d nb) = d
  /\ tshape (tensor_type t d nb) = tshape t
  /\ tdevice (tensor_type t d nb) = tdevice t
  /\ length (tdata (tensor_type t d nb)) = length (tdata t).
Proof.
  unfold tensor_type, torch_dtype_eqb.
  destruct (torch_dtype_eq_dec (tdtype t) d) as [Heq|Hne]; simpl;
    rewrite ?length_map; auto.
Qed.


(** X10: [AsType] applied to its own outcome changes nothing, a tensor
    that has the element type already is returned as it is, and the
    number of elements is kept in any case. *)
Theorem as_type_idempotent (self : AsType.t) (t : Tensor) :
  AsType.apply_to_chosen self (AsType.apply_to_chosen self t)
  = AsType.apply_to_chosen self t
  /\ (tdtype t = AsType.dtype (AsType.kwargs self) ->
      AsType.apply_to_chosen self t = t)
  /\ length (tdata (AsType.apply_to_chosen self t)) = length (tdata t).
Proof.
  unfold AsType.apply_to_chosen.
  set (d := AsType.dtype (AsType.kwargs self)).
  set (nb := AsType.non_blocking (AsType.kwargs self)).
  split; [|split].
  - unfold tensor_type at 1.
    rewrite (proj1 (tensor_type_fields t d nb)), torch_dtype_eqb_refl.
    reflexivity.
  - intros Hd. unfold tensor_type. rewrite Hd, torch_dtype_eqb_refl.
    reflexivity.
  - apply tensor_type_fields.
Qed.

(** X11: in the constructor of [AsType] the base class comes first: its
    error is the constructor's, whatever the name; the constructor
    returns an object exactly when the base class accepts the keyword
    arguments and the name is bound to an element type, and the object
    then holds that element type and the flag it was given. *)
Theorem as_type_init_outcome (name : string) (non_blocking : bool)
        (kw : super_kwargs) :
  (forall e, base_init kw = Raise e ->
             AsType.__init__ name non_blocking kw = Raise e)
  /\ (succeeds (AsType.__init__ name non_blocking kw)
      <-> exists b d,
          base_init kw = Ok b
          /\ torch_namespace name = Some (AttrDtype d))
  /\ (forall self,
         AsType.__init__ name non_blocking kw = Ok self ->
         base_init kw = Ok (AsType.base self)
         /\ torch_namespace name
            = Some (AttrDtype (AsType.dtype (AsType.kwargs self)))
         /\ AsType.non_blocking (AsType.kwargs self) = non_blocking).
Proof.
  unfold AsType.__init__, torch_getattr. split; [|split].
  - intros e He. rewrite He. reflexivity.
  - split.
    + intros [self Hs].
      destruct (base_init kw) as [b|e]; simpl in Hs; [|discriminate].
      destruct (torch_namespace name) as [[d|]|]; simpl in Hs;
        try discriminate.
      eauto.
    + intros (b & d & Hb & Hn). rewrite Hb, Hn. simpl.
      eexists; reflexivity.
  - intros self Hs.
    destruct (base_init kw) as [b|e]; simpl in Hs; [|discriminate].
    destruct (torch_namespace name) as [[d|]|]; simpl in Hs;
      try discriminate.
    injection Hs as <-. simpl. auto.
Qed.

(** X12: [AverageChannels] after [AsType]: on a tensor with at least two
    axes and a range that passes the check, the outcome is decided by the
    element type [AsType] converts to, whatever the input's was: a tensor
    of shape [N, 1, ...] of that type when it is floating point or
    complex, the [RuntimeError] of [torch.mean] when it is not. *)
Theorem as_type_then_average (a : AsType.t) (ac : AverageChannels.t)
        (t : Tensor) (N C : nat) (S : list nat) :
  tshape t = N :: C :: S ->
  AverageChannels.valid_range ac C ->
  (is_floating_or_complex (AsType.dtype (AsType.kwargs a)) = true ->
   exists r,
     AverageChannels.apply_to_chosen ac (AsType.apply_to_chosen a t) = Ok r
     /\ tshape r = N :: 1 :: S
     /\ tdtype r = AsType.dtype (AsType.kwargs a)
     /\ tdevice r = tdevice t)
  /\ (is_floating_or_complex (AsType.dtype (AsType.kwargs a)) = false ->
      AverageChannels.apply_to_chosen ac (AsType.apply_to_chosen a t)
      = Raise (RuntimeError "Can only calculate the mean of floating types")).
Proof.
  intros Hshape Hok. unfold AsType.apply_to_chosen.
  set (d := AsType.dtype (AsType.kwargs a)).
  set (nb := AsType.non_blocking (AsType.kwargs a)).
  destruct (tensor_type_fields t d nb) as (Hd & Hs & Hdev & _).
  rewrite Hshape in Hs.
  rewrite (apply_to_chosen_valid ac (tensor_type t d nb) N C S Hs Hok).
  destruct (slice_bounds C _) as [lo hi]. rewrite Hd. split.
  - intros Hfc. destruct (mean_of_kind_defined _ Hfc) as [red ->].
    eexists. split; [reflexivity|]. cbn [tshape tdtype tdevice]. auto.
  - intros Hfc. rewrite (mean_of_kind_undefined _ Hfc). reflexivity.
Qed.

End SequencesFurther.

(** ** The further properties at concrete inputs *)

Lemma average_channels_succeeds_iff_witness :
  succeeds (AverageChannels.apply_to_chosen
              (average no_base (Some 1%Z) (Some 3%Z)) float_batch).
Proof.
  apply (proj2 (@average_channels_succeeds_iff exact_library
                  (average no_base (Some 1%Z) (Some 3%Z)) float_batch)).
  exists 4. split; [reflexivity|]. split; [range_computed | reflexivity].
Defined.

Lemma average_channels_whole_axis_witness :
  AverageChannels.apply_to_chosen (average no_base None None) float_batch
  = torch_mean float_batch 1 true.
Proof.
  apply (proj1 (@average_channels_whole_axis exact_library
                  (average no_base None None) float_batch 2 4 [1; 2]
                  eq_refl eq_refl)).
  split; [reflexivity|]. split; [reflexivity|]. lia.
Defined.

Lemma average_channels_selected_only_witness :
  exists r1 r2,
    AverageChannels.apply_to_chosen
      (average no_base (Some 1%Z) (Some 3%Z)) float_batch = Ok r1
    /\ AverageChannels.apply_to_chosen
         (average no_base (Some 1%Z) (Some 3%Z)) float_batch_other = Ok r2
    /\ tshape r1 = tshape r2
    /\ forall b p,
        b < 2 -> valid_index [1; 2] p ->
        tensor_at r1 (b :: 0 :: p) = tensor_at r2 (b :: 0 :: p).
Proof.
  apply (@average_channels_selected_only exact_library
           (average no_base (Some 1%Z) (Some 3%Z))
           float_batch float_batch_other 2 4 [1; 2]);
    try reflexivity; [range_computed|].
  intros b c p Hb Hc Hp.
  vm_compute in Hc. destruct Hc as [<-|[<-|[]]];
    inversion Hp as [|h n1 p1 l1 Hh Hp1]; subst;
    inversion Hp1 as [|w n2 p2 l2 Hw Hp2]; subst;
    inversion Hp2; subst.
  all: assert (h = 0) as -> by lia.
  all: destruct b as [|[|b]]; [| |lia].
  all: destruct w as [|[|w]]; [| |lia].
  all: reflexivity.
Defined.

Lemma average_channels_twice_witness :
  AverageChannels.apply_to_chosen
    (average no_base (Some 1%Z) (Some 3%Z))
    (cpu_tensor torch_float32 [2; 1; 1; 2] (floats [4; 5; 12; 13]%Z))
  = Raise AverageChannels.invalid_range.
Proof.
  assert (H : AverageChannels.apply_to_chosen
                (average no_base (Some 1%Z) (Some 3%Z)) float_batch
              = Ok (cpu_tensor torch_float32 [2; 1; 1; 2]
                               (floats [4; 5; 12; 13]%Z)))
    by (vm_compute; reflexivity).
  apply (proj2 (proj2 (@average_channels_twice exact_library _ _ _ H))).
  range_computed.
Defined.

Lemma average_channels_stop_from_end_refused_witness :
  AverageChannels.apply_to_chosen
    (average no_base None (Some (-1)%Z)) float_batch
  = Raise AverageChannels.invalid_range.
Proof.
  apply (@average_channels_stop_from_end_refused exact_library
           (average no_base None (Some (-1)%Z)) float_batch 4 (-1)%Z);
    [reflexivity | reflexivity | lia
    | unfold AverageChannels.effective_start, average; simpl; lia].
Defined.

Lemma ensure_numpy_normalises_witness :
  exists a,
    VArray {| adtype := np_float32; ashape := [1; 4];
              adata := floats [1; 2; 3; 4]%Z |} = VArray a.
Proof.
  apply (proj1 (proj2 (@ensure_numpy_normalises exact_library ensure_numpy))
               (VTensor float_row)).
  reflexivity.
Defined.

Lemma ensure_numpy_fails_only_on_bfloat16_witness :
  (EnsureNumpy.apply_to_chosen ensure_numpy (VTensor bfloat16_tensor)
   = Raise (TypeError "Got unsupported ScalarType BFloat16"))
  /\ exists a,
      EnsureNumpy.apply_to_chosen ensure_numpy (VTensor cuda_tensor)
      = Ok (VArray a)
      /\ ashape a = tshape cuda_tensor
      /\ adata a = tdata cuda_tensor
      /\ np_kind (adtype a) = torch_kind (tdtype cuda_tensor).
Proof.
  split.
  - apply (proj1 (@ensure_numpy_fails_only_on_bfloat16 exact_library
                    ensure_numpy bfloat16_tensor)).
    reflexivity.
  - apply (proj1 (proj2 (@ensure_numpy_fails_only_on_bfloat16 exact_library
                           ensure_numpy cuda_tensor))).
    simpl. discriminate.
Defined.

Lemma ensure_torch_output_witness :
  exists t,
    VTensor (cpu_tensor torch_int32 [3] [SInt 0; SInt 5; SInt 65535])
    = VTensor t
    /\ forall a,
        VArray uint16_array = VArray a ->
        tdevice t = device_cpu
        /\ trequires_grad t = false
        /\ tshape t = ashape a
        /\ length (tdata t) = length (adata a)
        /\ (forallb (valid_elem (np_kind (adtype a))) (adata a) = true ->
            forallb (valid_elem (torch_kind (tdtype t))) (tdata t) = true).
Proof.
  apply (@ensure_torch_output exact_library ensure_torch
           (VArray uint16_array)).
  reflexivity.
Defined.

Lemma tensor_round_trip_witness :
  (v <- EnsureNumpy.apply_to_chosen ensure_numpy (VTensor cuda_tensor) ;;
   EnsureTorch.apply_to_chosen ensure_torch v)
  = Ok (VTensor (cpu_tensor torch_float32 [1; 2] (floats [1; 2]%Z))).
Proof.
  apply (proj1 (@tensor_round_trip exact_library ensure_torch ensure_numpy
                  cuda_tensor ltac:(simpl; discriminate))).
Defined.

Lemma as_type_idempotent_witness :
  AsType.apply_to_chosen as_float32 float_row = float_row.
Proof.
  apply (proj1 (proj2 (@as_type_idempotent exact_library as_float32
                         float_row))).
  reflexivity.
Defined.

Lemma as_type_init_outcome_witness :
  succeeds (@AsType.__init__ exact_library "float32" true []).
Proof.
  apply (proj2 (proj1 (proj2 (@as_type_init_outcome exact_library
                                 "float32" true [])))).
  exists [], torch_float32. split; reflexivity.
Defined.

Lemma as_type_then_average_witness :
  exists r,
    AverageChannels.apply_to_chosen
      (average no_base None None)
      (AsType.apply_to_chosen as_float32 int_tensor) = Ok r
    /\ tshape r = [1; 1; 1; 1]
    /\ tdtype r = torch_float32
    /\ tdevice r = device_cpu.
Proof.
  apply (proj1 (@as_type_then_average exact_library as_float32
                  (average no_base None None) int_tensor 1 4 [1; 1]
                  eq_refl ltac:(range_computed))).
  reflexivity.
Defined.


(** The means of the two channels of the batch, computed: [(1 + 3) / 2]
    and [(2 + 65535) / 2]. *)
Example uint16_batch_means_run :
  (v <- EnsureTorch.apply_to_chosen ensure_torch (VArray uint16_batch) ;;
   match v with
   | VTensor t =>
       AverageChannels.apply_to_chosen
         (average no_base None None) (AsType.apply_to_chosen as_float32 t)
   | VArray _ => Raise (TypeError "not a tensor")
   end)
  = Ok (cpu_tensor torch_float32 [1; 1; 2]
                   [SFloat (Qmake 2 1); SFloat (Qmake 65537 2)]).
Proof. vm_compute. reflexivity. Qed.
